(** * Plugin registry and tool-loop routing of the LangGraph agent

    A shallow embedding of [src/langgraph-agent/9_plugin_system_for_tools.js]:
    the [PluginSystem] class (a registry of named tools kept in two JavaScript
    [Map]s), the [AgentWithPlugins] class (prompt rendering, graph
    construction, the router [routeFromAgent]) and, from the specification,
    the graph engine that the script imports from [@langchain/langgraph]
    (builder, reducer and executor). *)

From Stdlib Require Import String Ascii List Bool.
From Stdlib Require Import ZArith DecimalString Lia.
Import ListNotations.

Local Open Scope string_scope.
Local Open Scope list_scope.

(** ** JavaScript [Map] with string keys

    A [Map] iterates in insertion order; [set] on a present key keeps the
    key's position and replaces the value; [delete] removes the key.  The
    order is observable through [entries()], so the map is an association
    list rather than an extensional finite map. *)

Module JsMap.

Section Ops.
Context {V : Type}.

Definition t := list (string * V).

Definition empty : t := [].

Definition has (k : string) (m : t) : bool :=
  existsb (fun e => String.eqb (fst e) k) m.

Fixpoint get (k : string) (m : t) : option V :=
  match m with
  | [] => None
  | (k', v) :: m' => if String.eqb k' k then Some v else get k m'
  end.

Fixpoint set (k : string) (v : V) (m : t) : t :=
  match m with
  | [] => [(k, v)]
  | (k', v') :: m' =>
      if String.eqb k' k then (k, v) :: m' else (k', v') :: set k v m'
  end.

Definition delete (k : string) (m : t) : t :=
  filter (fun e => negb (String.eqb (fst e) k)) m.

Definition keys (m : t) : list string := map fst m.

Definition entries (m : t) : list (string * V) := m.
End Ops.

Arguments t : clear implicits.

End JsMap.

(** ** Messages

    The script distinguishes messages by class ([instanceof]); the class is
    the [role] tag here.  [tool_calls] is the empty list when the property is
    absent or empty: the code only tests [tool_calls?.length]. *)

Inductive Role := RSystem | RHuman | RAssistant | RTool.

Record ToolCall := mkToolCall {
  tc_id : string;
  tc_name : string;
  tc_args : string
}.

Record Message := mkMessage {
  role : Role;
  content : string;
  tool_calls : list ToolCall;
  tool_call_id : option string
}.

Definition SystemMessage (c : string) : Message := mkMessage RSystem c [] None.
Definition HumanMessage (c : string) : Message := mkMessage RHuman c [] None.
Definition AIMessage (c : string) : Message := mkMessage RAssistant c [] None.
Definition AIMessageWithCalls (c : string) (tcs : list ToolCall) : Message :=
  mkMessage RAssistant c tcs None.
Definition ToolMessage (c : string) (id : string) : Message :=
  mkMessage RTool c [] (Some id).

Definition isAIMessage (m : Message) : bool :=
  match role m with RAssistant => true | _ => false end.

Definition isSystemMessage (m : Message) : bool :=
  match role m with RSystem => true | _ => false end.

(** ** Console output

    [console.log], [console.warn] and [console.error] are the only signals
    the registry gives besides its return values. *)

Inductive Level := LLog | LWarn | LError.

Record LogEvent := mkLog { level : Level; text : string }.

Definition isErrorEvent (e : LogEvent) : bool :=
  match level e with LError => true | _ => false end.

Definition isWarnEvent (e : LogEvent) : bool :=
  match level e with LWarn => true | _ => false end.

(** ** The plugin registry ([class PluginSystem]) *)

(** A tool is an opaque capability handle; the script only reads its name
    and description. *)
Record Tool := mkTool { tool_name : string; tool_description : string }.

Record PluginInfo := mkInfo {
  tool : Tool;
  description : string;
  enabled : bool
}.

(** [new ToolNode([plugin])]: a node wrapping exactly one tool. *)
Record ToolNode := mkToolNode { node_tools : list Tool }.

Record PluginSystem := mkPS {
  plugins : JsMap.t PluginInfo;
  toolNodes : JsMap.t ToolNode
}.

(** [constructor()] *)
Definition newPluginSystem : PluginSystem := mkPS JsMap.empty JsMap.empty.

(** [registerPlugin(name, plugin, description)]: returns the updated
    registry ([return this]) and what was written to the console. *)
Definition registerPlugin (name : string) (plugin : Tool) (desc : string)
    (ps : PluginSystem) : PluginSystem * list LogEvent :=
  let warn :=
    if JsMap.has name (plugins ps)
    then [mkLog LWarn ("Plugin " ++ name ++ " already registered. Overwriting...")]
    else [] in
  (mkPS (JsMap.set name (mkInfo plugin desc true) (plugins ps))
        (JsMap.set name (mkToolNode [plugin]) (toolNodes ps)),
   warn ++ [mkLog LLog ("Plugin registered: " ++ name ++ " - " ++ desc)]).

(** [unregisterPlugin(name)] *)
Definition unregisterPlugin (name : string) (ps : PluginSystem)
    : PluginSystem * bool * list LogEvent :=
  if negb (JsMap.has name (plugins ps))
  then (ps, false,
        [mkLog LWarn ("Plugin " ++ name ++ " not found, nothing to unregister.")])
  else (mkPS (JsMap.delete name (plugins ps)) (JsMap.delete name (toolNodes ps)),
        true,
        [mkLog LLog ("Plugin unregistered: " ++ name)]).

(** [setPluginEnabled(name, enabled)]: the stored object is mutated and put
    back under the same key.  The guard [!this.plugins.has(name)] holds
    exactly when [this.plugins.get(name)] is undefined (lemma
    [JsMapFacts.has_get]), so one match on the lookup covers both. *)
Definition setPluginEnabled (name : string) (en : bool) (ps : PluginSystem)
    : PluginSystem * bool * list LogEvent :=
  match JsMap.get name (plugins ps) with
  | None =>
      (ps, false,
       [mkLog LWarn ("Plugin " ++ name ++ " not found, can't change status.")])
  | Some plugin =>
      let plugin' := mkInfo (tool plugin) (description plugin) en in
      (mkPS (JsMap.set name plugin' (plugins ps)) (toolNodes ps),
       true,
       [mkLog LLog ("Plugin " ++ name ++ " "
                    ++ (if en then "enabled" else "disabled"))])
  end.

(** The objects [{name, tool, description}] built by [getEnabledPlugins]. *)
Record EnabledPlugin := mkEnabled {
  ep_name : string;
  ep_tool : Tool;
  ep_description : string
}.

(** [getEnabledPlugins()] *)
Definition getEnabledPlugins (ps : PluginSystem) : list EnabledPlugin :=
  map (fun e => mkEnabled (fst e) (tool (snd e)) (description (snd e)))
      (filter (fun e => enabled (snd e)) (JsMap.entries (plugins ps))).

(** [getEnabledTools()] *)
Definition getEnabledTools (ps : PluginSystem) : list Tool :=
  map ep_tool (getEnabledPlugins ps).

(** [getToolNode(name)] *)
Definition getToolNode (name : string) (ps : PluginSystem) : option ToolNode :=
  JsMap.get name (toolNodes ps).

(** [getEnabledToolNodes()]: [this.plugins.get(name)?.enabled] is falsy when
    the plugin is missing. *)
Definition getEnabledToolNodes (ps : PluginSystem) : JsMap.t ToolNode :=
  filter (fun e => match JsMap.get (fst e) (plugins ps) with
                   | Some info => enabled info
                   | None => false
                   end)
         (JsMap.entries (toolNodes ps)).

(** ** Strings of the prompt

    JavaScript strings are sequences of UTF-16 code units and the strings
    here sequences of bytes; the placeholder and the substitution patterns
    are ASCII, for which the two agree. *)

Definition nl : string := String (ascii_of_nat 10) EmptyString.

Fixpoint string_drop (n : nat) (s : string) : string :=
  match n, s with
  | O, _ => s
  | S n', String _ s' => string_drop n' s'
  | S _, EmptyString => EmptyString
  end.

(** [s.indexOf(pat)] as the text before and after the first occurrence. *)
Fixpoint splitAtFirst (pat s : string) : option (string * string) :=
  if String.prefix pat s
  then Some (EmptyString, string_drop (String.length pat) s)
  else match s with
       | EmptyString => None
       | String c s' =>
           match splitAtFirst pat s' with
           | Some (before, after) => Some (String c before, after)
           | None => None
           end
       end.

(** ECMAScript [GetSubstitution] for a string pattern (no capture groups):
    in the replacement text [$$] stands for a dollar sign, [$&] for the
    matched text, [$`] for the text before the match and [$'] for the text
    after it; every other character, a lone dollar sign included, stands for
    itself. *)
Fixpoint getSubstitution (matched before after template : string) : string :=
  match template with
  | EmptyString => EmptyString
  | String c rest =>
      if Ascii.eqb c "$"%char then
        match rest with
        | EmptyString => String c EmptyString
        | String d rest' =>
            if Ascii.eqb d "$"%char
            then String "$"%char (getSubstitution matched before after rest')
            else if Ascii.eqb d "&"%char
            then matched ++ getSubstitution matched before after rest'
            else if Ascii.eqb d "`"%char
            then before ++ getSubstitution matched before after rest'
            else if Ascii.eqb d "'"%char
            then after ++ getSubstitution matched before after rest'
            else String c (getSubstitution matched before after rest)
        end
      else String c (getSubstitution matched before after rest)
  end.

(** [s.replace(pat, replacement)] with a string pattern: the first
    occurrence only. *)
Definition js_replace (s pat replacement : string) : string :=
  match splitAtFirst pat s with
  | None => s
  | Some (before, after) =>
      before ++ getSubstitution pat before after replacement ++ after
  end.

(** ** The agent ([class AgentWithPlugins]): prompt and router *)

Definition END : string := "__end__".
Definition START : string := "__start__".
Definition placeholder : string := "{tool_descriptions}".

(** [getDefaultSystemPrompt()] *)
Definition getDefaultSystemPrompt : string :=
  "You are a helpful AI assistant that can use various tools to help the user." ++ nl ++
  "You have access to the following tools:" ++ nl ++
  placeholder ++ nl ++
  nl ++
  "Always use tools when they can help answer the user's question better." ++ nl ++
  "After using a tool, analyze the result and determine if you need another tool or can provide the final answer." ++ nl ++
  "Be concise and helpful in your responses.".

(** The line of one plugin in [buildToolDescriptions]. *)
Definition descriptionLine (p : EnabledPlugin) : string :=
  "- " ++ ep_name p ++ ": " ++ ep_description p.

(** [buildToolDescriptions()] *)
Definition buildToolDescriptions (ps : PluginSystem) : string :=
  String.concat nl (map descriptionLine (getEnabledPlugins ps)).

(** [getUpdatedSystemPrompt()] *)
Definition getUpdatedSystemPrompt (systemPrompt : string) (ps : PluginSystem)
    : string :=
  let toolDescriptions := buildToolDescriptions ps in
  js_replace systemPrompt placeholder toolDescriptions.

(** [messages[messages.length - 1]]: undefined on the empty array. *)
Definition lastMessage (messages : list Message) : option Message :=
  last (map Some messages) None.

(** The tool the first branch of [routeFromAgent] routes to, if any: the
    last message is an [AIMessage] with a non-empty [tool_calls] whose first
    entry names an enabled plugin. *)
Definition routedTool (ps : PluginSystem) (messages : list Message)
    : option string :=
  match lastMessage messages with
  | Some m =>
      if isAIMessage m then
        match tool_calls m with
        | toolCall :: _ =>
            let toolName := tc_name toolCall in
            if existsb (fun p => String.eqb (ep_name p) toolName)
                       (getEnabledPlugins ps)
            then Some toolName
            else None
        | [] => None
        end
      else None
  | None => None
  end.

(** [routeFromAgent({ messages })]: the route key and the console output. *)
Definition routeFromAgent (ps : PluginSystem) (messages : list Message)
    : string * list LogEvent :=
  match routedTool ps messages with
  | Some toolName => (toolName, [mkLog LLog ("Routing to tool: " ++ toolName)])
  | None =>
      let responseCount := List.length (filter isAIMessage messages) in
      if Nat.ltb 10 responseCount
      then (END, [mkLog LWarn "Potential infinite loop detected - forcing end of conversation"])
      else (END, [])
  end.

(** ** Run state and reducer *)

(** A run state: the [messages] channel and the scalar channels, keyed by
    channel name. *)
Record RunState := mkState {
  st_messages : list Message;
  st_channels : JsMap.t string
}.

(** What a node returns: the messages to append and the scalar channels it
    writes, in the order written. *)
Record PartialState := mkPartial {
  p_messages : list Message;
  p_channels : list (string * string)
}.

(** Modelled from the spec: the reducer [merge] of section 4.3; the script
    takes it from [MessagesAnnotation] of [@langchain/langgraph], which is
    not part of the sources.  [messages] is appended to, any other channel
    present in the partial state is overwritten, absent channels are kept. *)
Definition merge (state : RunState) (partial : PartialState) : RunState :=
  mkState (st_messages state ++ p_messages partial)
          (fold_left (fun m kv => JsMap.set (fst kv) (snd kv) m)
                     (p_channels partial) (st_channels state)).

(** Modelled from the spec: the single combined output with the same total
    content as two outputs emitted one after the other (section 4.3). *)
Definition combine (partialA partialB : PartialState) : PartialState :=
  mkPartial (p_messages partialA ++ p_messages partialB)
            (p_channels partialA ++ p_channels partialB).

(** ** Graph engine *)

(** Node bodies and routers are closures over the agent object
    ([this.agentNode.bind(this)], [this.routeFromAgent.bind(this)]) or
    [ToolNode] objects; they are kept as tags and run against the live agent
    by the executor. *)
Inductive NodeBody := NAgent | NTool (tn : ToolNode).

Inductive Router := RouteFromAgent.

Record ConditionalEdge := mkCond {
  ce_source : string;
  ce_route : Router;
  ce_targets : list (string * string);
  ce_default : option string
}.

(** The error taxonomy of section 7 of the specification. *)
Inductive GraphError :=
| DuplicateNodeError (name : string)
| UnknownNodeError (name : string)
| GraphValidationError (dangling : list string)
| RoutingKeyError (node key : string)
| NoOutgoingEdgeError (node : string)
| RecursionLimitExceeded (steps : nat) (lastNode : string) (partial : RunState).

Inductive Result (A : Type) :=
| Ok (a : A)
| Err (e : GraphError).

Arguments Ok {A} a.
Arguments Err {A} e.

Definition bind {A B : Type} (r : Result A) (k : A -> Result B) : Result B :=
  match r with
  | Ok a => k a
  | Err e => Err e
  end.

Notation "x <- r ;; k" := (bind r (fun x => k))
  (at level 61, r at next level, right associativity).

(** A left fold whose step may fail: the [for ... of] loops of [buildGraph]. *)
Fixpoint foldM {A B : Type} (f : B -> A -> Result B) (l : list A) (b : B)
    : Result B :=
  match l with
  | [] => Ok b
  | x :: l' => b' <- f b x ;; foldM f l' b'
  end.

Record Builder := mkBuilder {
  b_nodes : list (string * NodeBody);
  b_edges : list (string * string);
  b_cond : list ConditionalEdge
}.

Record CompiledGraph := mkGraph {
  cg_entry : string;
  cg_nodes : list (string * NodeBody);
  cg_edges : list (string * string);
  cg_cond : list ConditionalEdge;
  cg_recursionLimit : nat
}.

Definition mem (x : string) (l : list string) : bool :=
  existsb (String.eqb x) l.

Definition hasNode (name : string) (nodes : list (string * NodeBody)) : bool :=
  mem name (map fst nodes).

(** [new StateGraph(MessagesAnnotation)] *)
Definition newBuilder : Builder := mkBuilder [] [] [].

(** Modelled from the spec: the builder of section 4.1 ([StateGraph] of
    [@langchain/langgraph] is not part of the sources).  [addNode] fails
    with [DuplicateNodeError] on a name already registered. *)
Definition addNode (name : string) (fn : NodeBody) (b : Builder)
    : Result Builder :=
  if hasNode name (b_nodes b) then Err (DuplicateNodeError name)
  else Ok (mkBuilder (b_nodes b ++ [(name, fn)]) (b_edges b) (b_cond b)).

(** Modelled from the spec: what an edge may point to in section 4.1, a
    registered node or the terminal marker. *)
Definition isTarget (name : string) (b : Builder) : bool :=
  String.eqb name END || hasNode name (b_nodes b).

(** Modelled from the spec: what an edge may leave from, the same or the
    reserved entry point [__start__]. *)
Definition isSource (name : string) (b : Builder) : bool :=
  String.eqb name START || isTarget name b.

(** Modelled from the spec: [addEdge] of section 4.1.  The entry is declared
    by an edge out of the reserved [__start__], as in
    [workflow.addEdge("__start__", "agent")]. *)
Definition addEdge (src dst : string) (b : Builder) : Result Builder :=
  if negb (isSource src b) then Err (UnknownNodeError src)
  else if negb (isTarget dst b) then Err (UnknownNodeError dst)
  else Ok (mkBuilder (b_nodes b) (b_edges b ++ [(src, dst)]) (b_cond b)).

(** Modelled from the spec: [addConditionalEdge] of section 4.1. *)
Definition addConditionalEdges (src : string) (routeFn : Router)
    (targetMap : list (string * string)) (default : option string)
    (b : Builder) : Result Builder :=
  let dsts := map snd targetMap
              ++ match default with Some d => [d] | None => [] end in
  match find (fun n => negb (isTarget n b)) (src :: dsts) with
  | Some n => Err (UnknownNodeError n)
  | None =>
      Ok (mkBuilder (b_nodes b) (b_edges b)
                    (b_cond b ++ [mkCond src routeFn targetMap default]))
  end.

(** Modelled from the spec: the reachability of the integrity pass of
    section 4.1; the nodes one transition away from [n]. *)
Definition successors (b : Builder) (n : string) : list string :=
  map snd (filter (fun e => String.eqb (fst e) n) (b_edges b))
  ++ flat_map (fun ce =>
       if String.eqb (ce_source ce) n
       then map snd (ce_targets ce)
            ++ match ce_default ce with Some d => [d] | None => [] end
       else []) (b_cond b).

(** Modelled from the spec: the names reached from [seen] in at most
    [fuel] transitions. *)
Fixpoint reachable (fuel : nat) (b : Builder) (seen : list string)
    : list string :=
  match fuel with
  | O => seen
  | S fuel' =>
      reachable fuel' b
        (seen ++ filter (fun n => negb (mem n seen))
                        (flat_map (successors b) seen))
  end.

(** Modelled from the spec: the findings of the referential-integrity pass
    of section 4.1: a missing entry, the nodes not reachable from the entry,
    and the conditional-edge targets that resolve to nothing. *)
Definition validationFindings (b : Builder) : list string :=
  match JsMap.get START (b_edges b) with
  | None => [START]
  | Some entry =>
      filter (fun n => negb (mem n (reachable (List.length (b_nodes b)) b [entry])))
             (map fst (b_nodes b))
      ++ filter (fun n => negb (isTarget n b))
                (flat_map (fun ce =>
                   map snd (ce_targets ce)
                   ++ match ce_default ce with Some d => [d] | None => [] end)
                   (b_cond b))
  end.

(** Modelled from the spec: [compile] of section 4.1, collecting every
    finding before failing. *)
Definition compile (recursionLimit : nat) (b : Builder)
    : Result CompiledGraph :=
  match JsMap.get START (b_edges b), validationFindings b with
  | Some entry, [] =>
      Ok (mkGraph entry (b_nodes b) (b_edges b) (b_cond b) recursionLimit)
  | _, findings => Err (GraphValidationError findings)
  end.

(** ** The agent object *)

Record AgentWithPlugins := mkAgent {
  pluginSystem : PluginSystem;
  systemPrompt : string;
  boundTools : list Tool;
  graph : option CompiledGraph
}.

(** [constructor(systemPrompt)] with a prompt, and without one. *)
Definition newAgent (prompt : option string) : AgentWithPlugins :=
  mkAgent newPluginSystem
          (match prompt with Some p => p | None => getDefaultSystemPrompt end)
          [] None.

(** [buildGraph()]: the graph compiled from the registry as it is now.  The
    target map is the object literal
    [{__end__: "__end__", ...Object.fromEntries(names.map(n => [n, n]))}],
    read by key only. *)
Definition buildGraph (ps : PluginSystem) : Result CompiledGraph :=
  let toolNodes := getEnabledToolNodes ps in
  b1 <- addNode "agent" NAgent newBuilder ;;
  b2 <- foldM (fun b e => addNode (fst e) (NTool (snd e)) b)
              (JsMap.entries toolNodes) b1 ;;
  b3 <- addEdge START "agent" b2 ;;
  b4 <- addConditionalEdges "agent" RouteFromAgent
          ((END, END) :: map (fun name => (name, name)) (JsMap.keys toolNodes))
          None b3 ;;
  b5 <- foldM (fun b name => addEdge name "agent" b) (JsMap.keys toolNodes) b4 ;;
  compile 100 b5.

(** The node made of an entry of [getEnabledToolNodes()]. *)
Definition toolEntry (e : string * ToolNode) : string * NodeBody :=
  (fst e, NTool (snd e)).

(** The graph of the tool loop over the tool nodes [tns]: the agent node and
    one node per tool, the entry edge, one edge from each tool node back to
    the agent, and the conditional edge out of the agent. *)
Definition toolLoopGraph (tns : JsMap.t ToolNode) : CompiledGraph :=
  mkGraph "agent"
    (("agent", NAgent) :: map toolEntry tns)
    ((START, "agent") :: map (fun name => (name, "agent")) (JsMap.keys tns))
    [mkCond "agent" RouteFromAgent
       ((END, END) :: map (fun name => (name, name)) (JsMap.keys tns)) None]
    100.

(** Every entry of the target maps of a graph. *)
Definition routeTargets (g : CompiledGraph) : list (string * string) :=
  flat_map ce_targets (cg_cond g).

(** [initialize()]: bind the enabled tools to the model, then build the
    graph; a failure of the build leaves the agent as it was. *)
Definition initialize (a : AgentWithPlugins) : Result AgentWithPlugins :=
  let tools := getEnabledTools (pluginSystem a) in
  g <- buildGraph (pluginSystem a) ;;
  Ok (mkAgent (pluginSystem a) (systemPrompt a) tools (Some g)).

(** Registry calls made on [agent.pluginSystem]: they touch the registry
    only, never [agent.graph]. *)
Definition agentRegister (name : string) (t : Tool) (desc : string)
    (a : AgentWithPlugins) : AgentWithPlugins :=
  mkAgent (fst (registerPlugin name t desc (pluginSystem a)))
          (systemPrompt a) (boundTools a) (graph a).


Definition agentSetEnabled (name : string) (en : bool) (a : AgentWithPlugins)
    : AgentWithPlugins * bool :=
  let r := setPluginEnabled name en (pluginSystem a) in
  (mkAgent (fst (fst r)) (systemPrompt a) (boundTools a) (graph a),
   snd (fst r)).

(** ** Executor *)

Section Executor.

(** The external collaborators of section 6 of the specification: the
    language model with its bound tools (its answer is the content and the
    tool calls of an [AIMessage], or a failure), the execution of a prebuilt
    [ToolNode] on the messages so far (the tool messages it appends, or a
    failure), and the synthetic message that records the failure of a node. *)
Variable llm : list Tool -> list Message -> option (string * list ToolCall).
Variable execToolNode : ToolNode -> list Message -> option (list Message).
Variable failureMessage : string -> Message.

Definition fallbackAnswer : string :=
  "I encountered an error while processing your request. Could you please try again or rephrase your question?".

(** [agentNode({ messages })]: the system message is prepended when none is
    present, and the whole list is returned with the answer at its end.  The
    [console.error] of the [catch] branch is not recorded. *)
Definition agentNode (a : AgentWithPlugins) (messages : list Message)
    : PartialState :=
  let messages' :=
    if negb (existsb isSystemMessage messages)
    then SystemMessage (getUpdatedSystemPrompt (systemPrompt a) (pluginSystem a))
         :: messages
    else messages in
  match llm (boundTools a) messages' with
  | Some (c, tcs) => mkPartial (messages' ++ [AIMessageWithCalls c tcs]) []
  | None => mkPartial (messages' ++ [AIMessage fallbackAnswer]) []
  end.

(** A node body run against the live agent; [None] is a thrown failure. *)
Definition runNode (fn : NodeBody) (a : AgentWithPlugins) (state : RunState)
    : option PartialState :=
  match fn with
  | NAgent => Some (agentNode a (st_messages state))
  | NTool tn =>
      match execToolNode tn (st_messages state) with
      | Some ms => Some (mkPartial ms [])
      | None => None
      end
  end.

(** A router run against the live agent: [routeFromAgent] reads the
    registry as it is when the route is taken. *)
Definition runRouter (r : Router) (a : AgentWithPlugins) (state : RunState)
    : string :=
  match r with
  | RouteFromAgent => fst (routeFromAgent (pluginSystem a) (st_messages state))
  end.

(** Modelled from the spec: the resolution of the next node in section 4.2.
    The key of a conditional edge must be in its target map or be its
    default target; without a conditional edge the unconditional edge is
    taken. *)
Definition resolveNext (g : CompiledGraph) (a : AgentWithPlugins)
    (state : RunState) (current : string) : Result string :=
  match find (fun ce => String.eqb (ce_source ce) current) (cg_cond g) with
  | Some ce =>
      let key := runRouter (ce_route ce) a state in
      match JsMap.get key (ce_targets ce), ce_default ce with
      | Some target, _ => Ok target
      | None, Some d =>
          if String.eqb key d then Ok d else Err (RoutingKeyError current key)
      | None, None => Err (RoutingKeyError current key)
      end
  | None =>
      match JsMap.get current (cg_edges g) with
      | Some target => Ok target
      | None => Err (NoOutgoingEdgeError current)
      end
  end.

(** Modelled from the spec: one turn of the loop of section 4.2 at a node
    other than the terminal marker: run the body, merge its output (or the
    message recording its failure), resolve the next node. *)
Definition step (g : CompiledGraph) (a : AgentWithPlugins)
    (state : RunState) (current : string) : Result (string * RunState) :=
  match JsMap.get current (cg_nodes g) with
  | None => Err (UnknownNodeError current)
  | Some fn =>
      let state' :=
        match runNode fn a state with
        | Some partial => merge state partial
        | None => merge state (mkPartial [failureMessage current] [])
        end in
      next <- resolveNext g a state' current ;;
      Ok (next, state')
  end.

(** Modelled from the spec: the loop of section 4.2.  [remaining] is the
    recursion limit minus the steps made, so the limit check
    [steps >= recursionLimit] is [remaining = 0]. *)
Fixpoint loop (remaining : nat) (g : CompiledGraph) (a : AgentWithPlugins)
    (current : string) (state : RunState) (steps : nat) : Result RunState :=
  if String.eqb current END then Ok state
  else match remaining with
       | O => Err (RecursionLimitExceeded steps current state)
       | S remaining' =>
           match step g a state current with
           | Err e => Err e
           | Ok (next, state') => loop remaining' g a next state' (S steps)
           end
       end.

(** Modelled from the spec: [invoke(compiledGraph, initialState)]. *)
Definition invoke (g : CompiledGraph) (a : AgentWithPlugins)
    (initialState : RunState) : Result RunState :=
  loop (cg_recursionLimit g) g a (cg_entry g) initialState 0.

End Executor.

(** ** Histories of registry calls

    The calls of scenario D: registrations and enable/disable calls, applied
    from left to right. *)

Inductive RegistryOp :=
| OpRegister (name : string) (t : Tool) (desc : string)
| OpSetEnabled (name : string) (en : bool).

Definition applyOp (ps : PluginSystem) (op : RegistryOp) : PluginSystem :=
  match op with
  | OpRegister name t desc => fst (registerPlugin name t desc ps)
  | OpSetEnabled name en => fst (fst (setPluginEnabled name en ps))
  end.

Definition runOps (ops : list RegistryOp) (ps : PluginSystem) : PluginSystem :=
  fold_left applyOp ops ps.

(** The names registered by a history, one entry per registration. *)
Definition registeredNames (ops : list RegistryOp) : list string :=
  flat_map (fun op => match op with
                      | OpRegister name _ _ => [name]
                      | OpSetEnabled _ _ => []
                      end) ops.

(** Each name once, at the place of its first occurrence. *)
Fixpoint firstOccurrences (l : list string) : list string :=
  match l with
  | [] => []
  | x :: l' => x :: filter (fun y => negb (String.eqb x y)) (firstOccurrences l')
  end.

(** What the calls of a history say about one name: the last registration
    of the name gives its tool and description and enables it, and each
    later enable/disable call sets its flag. *)
Definition opOn (name : string) (cur : option PluginInfo) (op : RegistryOp)
    : option PluginInfo :=
  match op with
  | OpRegister n t desc =>
      if String.eqb n name then Some (mkInfo t desc true) else cur
  | OpSetEnabled n en =>
      if String.eqb n name
      then match cur with
           | Some i => Some (mkInfo (tool i) (description i) en)
           | None => None
           end
      else cur
  end.

Definition currentInfo (name : string) (ops : list RegistryOp)
    : option PluginInfo :=
  fold_left (opOn name) ops None.

(** The tools of the plugins that a history leaves enabled, in the order of
    first registration: the reading of [enabledTools()] in scenario D. *)
Definition enabledToolsOf (ops : list RegistryOp) : list Tool :=
  flat_map (fun name => match currentInfo name ops with
                        | Some i => if enabled i then [tool i] else []
                        | None => []
                        end)
           (firstOccurrences (registeredNames ops)).

(** The registry invariant: both maps hold the same keys in the same order,
    each key once. *)
Definition wellFormed (ps : PluginSystem) : Prop :=
  JsMap.keys (plugins ps) = JsMap.keys (toolNodes ps)
  /\ NoDup (JsMap.keys (plugins ps)).

(** ** The registry of scenario D *)

Definition searchTool : Tool :=
  mkTool "tavily_search" "Search the web for current information".

Definition calcTool : Tool :=
  mkTool "calculator" "Perform mathematical calculations".

(** [{search: enabled, calc: disabled}], registered in this order. *)
Definition scenarioD : list RegistryOp :=
  [OpRegister "search" searchTool "Search the web for current information";
   OpRegister "calc" calcTool "Perform mathematical calculations";
   OpSetEnabled "calc" false].

(** ** A demonstration agent

    The registry holds [search] and [calc], both enabled, and the agent was
    initialized from it. *)

Definition demoRegistry : PluginSystem :=
  runOps [OpRegister "search" searchTool "Search the web for current information";
          OpRegister "calc" calcTool "Perform mathematical calculations"]
         newPluginSystem.

Definition demoGraph : CompiledGraph :=
  toolLoopGraph (getEnabledToolNodes demoRegistry).

Definition demoAgent : AgentWithPlugins :=
  mkAgent demoRegistry getDefaultSystemPrompt (getEnabledTools demoRegistry)
          (Some demoGraph).

Definition searchCall : ToolCall := mkToolCall "call_1" "search" "{}".

(** A registry that only holds [search]. *)
Definition searchOnly : PluginSystem :=
  runOps [OpRegister "search" searchTool "Search the web"] newPluginSystem.

(** A question answered by a call of [search]. *)
Definition searchAnswer : list Message :=
  [HumanMessage "hi"; AIMessageWithCalls EmptyString [searchCall]].

(** The initial state of a run on the question [hi]. *)
Definition hiState : RunState := mkState [HumanMessage "hi"] [].

(** A call of a tool that was never registered. *)
Definition ghostCall : ToolCall := mkToolCall "call_0" "ghost" "{}".

(** The model of scenario B: every answer is a call of [ghost]. *)
Definition ghostLlm (tools : list Tool) (messages : list Message)
    : option (string * list ToolCall) :=
  Some (EmptyString, [ghostCall]).

Definition echoToolNode (tn : ToolNode) (messages : list Message)
    : option (list Message) :=
  Some [ToolMessage "ok" "call_1"].

Definition failureNote (node : string) : Message :=
  AIMessage ("Node " ++ node ++ " failed").

(** An answer with two calls, the first of an unregistered tool. *)
Definition mixedCalls : list Message :=
  [HumanMessage "hi"; AIMessageWithCalls EmptyString [ghostCall; searchCall]].

(** A transcript in which the model has called [search] eleven times. *)
Definition loopTranscript : list Message :=
  HumanMessage "What's the weather like in Tokyo?"
  :: flat_map (fun _ => [AIMessageWithCalls EmptyString [searchCall];
                         ToolMessage "ok" "call_1"]) (seq 0 10)
  ++ [AIMessageWithCalls EmptyString [searchCall]].

(** ** A description with dollar signs *)

Definition diningTool : Tool := mkTool "dining" "Restaurant ratings".

Definition diningRegistry : PluginSystem :=
  runOps [OpRegister "dining" diningTool "Rate restaurants from $ to $$$"]
         newPluginSystem.

(** The default prompt before and after its placeholder. *)
Definition promptBefore : string :=
  "You are a helpful AI assistant that can use various tools to help the user." ++ nl ++
  "You have access to the following tools:" ++ nl.

Definition promptAfter : string :=
  nl ++ nl ++
  "Always use tools when they can help answer the user's question better." ++ nl ++
  "After using a tool, analyze the result and determine if you need another tool or can provide the final answer." ++ nl ++
  "Be concise and helpful in your responses.".

(** No dollar sign occurs in the string. *)
Fixpoint noDollar (s : string) : bool :=
  match s with
  | EmptyString => true
  | String c s' => negb (Ascii.eqb c "$"%char) && noDollar s'
  end.

(** ** The rest of the registry and of the agent *)

(** The objects [{name, description, enabled}] built by [getAllPlugins]. *)
Record PluginSummary := mkSummary {
  ap_name : string;
  ap_description : string;
  ap_enabled : bool
}.

(** [getAllPlugins()] *)
Definition getAllPlugins (ps : PluginSystem) : list PluginSummary :=
  map (fun e => mkSummary (fst e) (description (snd e)) (enabled (snd e)))
      (JsMap.entries (plugins ps)).

(** [createCustomTool(name, description, func, schema)]: with or without a
    schema the tool carries the given name and description; the function
    and the schema are not part of the handle [Tool]. *)
Definition createCustomTool (name desc : string) : Tool := mkTool name desc.

(** [AgentWithPlugins.registerFunctionPlugin(name, description, func, schema)] *)
Definition registerFunctionPlugin (name desc : string) (a : AgentWithPlugins)
    : AgentWithPlugins :=
  let t := createCustomTool name desc in
  agentRegister name t desc a.

(** The tool made in [registerBuiltInPlugins] for the plugin [time]. *)
Definition timeTool : Tool :=
  createCustomTool "current_time" "Get the current date and time".

(** [registerBuiltInPlugins()]: [search], [calculator] and [time], in this
    order. *)
Definition registerBuiltInPlugins (a : AgentWithPlugins) : AgentWithPlugins :=
  let a1 := agentRegister "search" searchTool
              "Search the web for current information" a in
  let a2 := agentRegister "calculator" calcTool
              "Perform mathematical calculations" a1 in
  agentRegister "time" timeTool "Get the current time and date" a2.

(** Histories of registry calls with unregistrations. *)
Inductive RegistryCall :=
| CallRegister (name : string) (t : Tool) (desc : string)
| CallUnregister (name : string)
| CallSetEnabled (name : string) (en : bool).

Definition applyCall (ps : PluginSystem) (c : RegistryCall) : PluginSystem :=
  match c with
  | CallRegister name t desc => fst (registerPlugin name t desc ps)
  | CallUnregister name => fst (fst (unregisterPlugin name ps))
  | CallSetEnabled name en => fst (fst (setPluginEnabled name en ps))
  end.

Definition runCalls (calls : list RegistryCall) (ps : PluginSystem)
    : PluginSystem :=
  fold_left applyCall calls ps.

(** The tool node that [registerPlugin] stores beside a plugin entry. *)
Definition toolNodeOf (e : string * PluginInfo) : string * ToolNode :=
  (fst e, mkToolNode [tool (snd e)]).

(** The two maps of the registry agree: the tool nodes are, entry by entry
    and in the same order, the nodes of the plugins, and no name occurs
    twice. *)
Definition consistent (ps : PluginSystem) : Prop :=
  toolNodes ps = map toolNodeOf (plugins ps)
  /\ NoDup (JsMap.keys (plugins ps)).

(** No opening brace occurs in the string. *)
Fixpoint noBrace (s : string) : bool :=
  match s with
  | EmptyString => true
  | String c s' => negb (Ascii.eqb c "{"%char) && noBrace s'
  end.

(** ** [run] *)

Section Run.

Variable llm : list Tool -> list Message -> option (string * list ToolCall).
Variable execToolNode : ToolNode -> list Message -> option (list Message).
Variable failureMessage : string -> Message.

(** [error.message] of what [graph.invoke] throws, and of the [TypeError]
    of a call on a graph that is still [null]. *)
Variable errorText : GraphError -> string.
Variable nullGraphText : string.

(** The answer of the [catch] branch of [run]. *)
Definition runFailureAnswer (msg : string) : string :=
  "I encountered an error while processing your request: " ++ msg
  ++ ". This might be due to a tool misbehaving or a recursion issue.".

(** The state returned by the [catch] branch of [run]. *)
Definition apology (message msg : string) : RunState :=
  mkState [HumanMessage message; AIMessage (runFailureAnswer msg)] [].

(** The [try]/[catch] of [run] around [this.graph.invoke(initialState)]. *)
Definition invokeOrApologize (g : option CompiledGraph) (a : AgentWithPlugins)
    (message : string) : RunState :=
  let initialState := mkState [HumanMessage message] [] in
  match g with
  | None => apology message nullGraphText
  | Some g =>
      match invoke llm execToolNode failureMessage g a initialState with
      | Ok final => final
      | Err e => apology message (errorText e)
      end
  end.

(** [run(message)]: the agent is initialized first if it has no graph; a
    failure of that initialization is outside the [try] and is the failure
    of [run].  The result is the agent as [run] leaves it and the state
    returned. *)
Definition run (a : AgentWithPlugins) (message : string)
    : Result (AgentWithPlugins * RunState) :=
  a' <- match graph a with
        | Some _ => Ok a
        | None => initialize a
        end ;;
  Ok (a', invokeOrApologize (graph a') a' message).

End Run.

(** The messages of a state begin with [first] and end with an assistant
    message. *)
Definition framed (first : Message) (state : RunState) : Prop :=
  exists middle answer,
    st_messages state = first :: middle ++ [answer]
    /\ isAIMessage answer = true.

Definition startsWith (first : Message) (state : RunState) : Prop :=
  exists rest, st_messages state = first :: rest.

(** ** The notepad tool of [createExamplePlugins] *)

Record Note := mkNote {
  note_id : nat;
  note_text : string;
  note_timestamp : string
}.

(** The fields that the notepad reads from its parsed input: [action] and
    [text] are strings when present and [id] is an integer when present. *)
Record NotepadParams := mkParams {
  np_action : option string;
  np_text : option string;
  np_id : option Z
}.

Section Notepad.

(** [JSON.parse] followed by the reading of the fields ([None] when either
    throws), and [JSON.stringify] on a note and on the array of notes. *)
Variable parseParams : string -> option NotepadParams.
Variable stringifyNote : Note -> string.
Variable stringifyNotes : list Note -> string.

Definition isAction (a : string) (params : NotepadParams) : bool :=
  match np_action params with
  | Some a' => String.eqb a' a
  | None => false
  end.

(** [notepadTool.func(input)] on the array [notes] it closes over, with the
    reading [now] of [new Date().toISOString()]: the array afterwards and
    the text returned. *)
Definition notepadFunc (notes : list Note) (now input : string)
    : list Note * string :=
  match parseParams input with
  | None =>
      (notes, "Error: Please provide valid JSON input with 'action' field")
  | Some params =>
      if isAction "save" params then
        match np_text params with
        | None | Some EmptyString =>
            (notes, "Error: 'text' field is required for saving notes")
        | Some t =>
            let notes' := notes ++ [mkNote (List.length notes + 1) t now] in
            (notes',
             ("Note saved with ID "
              ++ NilZero.string_of_uint (Nat.to_uint (List.length notes')))%string)
        end
      else if isAction "get" params then
        match np_id params with
        | Some id =>
            if Z.eqb id 0 then (notes, stringifyNotes notes)
            else match find (fun n => Z.eqb (Z.of_nat (note_id n)) id) notes with
                 | Some note => (notes, stringifyNote note)
                 | None => (notes, "Note not found")
                 end
        | None => (notes, stringifyNotes notes)
        end
      else (notes, "Unknown action. Use 'save' or 'get'.")
  end.

(** The notes after a series of calls, each with its clock reading and its
    input, starting from [notes]. *)
Definition notepadRun (calls : list (string * string)) (notes : list Note)
    : list Note :=
  fold_left (fun ns c => fst (notepadFunc ns (fst c) (snd c))) calls notes.

End Notepad.

(** An agent whose graph was compiled when the registry only held
    [search], and whose registry has since been given [calc]; and a model
    that always calls [calc]. *)
Definition staleAgent : AgentWithPlugins :=
  mkAgent demoRegistry getDefaultSystemPrompt (getEnabledTools searchOnly)
          (Some (toolLoopGraph (getEnabledToolNodes searchOnly))).

Definition calcCall : ToolCall := mkToolCall "call_2" "calc" "{}".

Definition calcLlm (tools : list Tool) (messages : list Message)
    : option (string * list ToolCall) :=
  Some (EmptyString, [calcCall]).

(** A parser for two inputs, used to run the notepad on an example. *)
Definition demoParse (input : string) : option NotepadParams :=
  if String.eqb input "save milk"
  then Some (mkParams (Some "save") (Some "milk") None)
  else if String.eqb input "get 1"
  then Some (mkParams (Some "get") None (Some 1%Z))
  else None.

Definition demoStringifyNote (n : Note) : string := note_text n.

Definition demoStringifyNotes (ns : list Note) : string :=
  String.concat "," (map note_text ns).

(** * Facts about the [Map] model *)

Module JsMapFacts.

Section Facts.
Context {V : Type}.
Implicit Types (m : JsMap.t V) (k : string) (v : V).

Lemma has_get k m :
  JsMap.has k m = match JsMap.get k m with Some _ => true | None => false end.
Proof.
  induction m as [|[k' v'] m IH]; simpl; [reflexivity|].
  destruct (String.eqb k' k); simpl; [reflexivity|exact IH].
Qed.

Lemma has_In k m : JsMap.has k m = true <-> In k (JsMap.keys m).
Proof.
  unfold JsMap.has, JsMap.keys. rewrite existsb_exists, in_map_iff.
  split; intros [e [H1 H2]]; exists e.
  - apply String.eqb_eq in H2. auto.
  - split; [exact H2|]. now apply String.eqb_eq.
Qed.

Lemma has_false_notin k m : JsMap.has k m = false <-> ~ In k (JsMap.keys m).
Proof.
  rewrite <- has_In. destruct (JsMap.has k m); split; congruence.
Qed.

Lemma get_set_eq k v m : JsMap.get k (JsMap.set k v m) = Some v.
Proof.
  induction m as [|[k' v'] m IH]; simpl.
  - now rewrite String.eqb_refl.
  - destruct (String.eqb k' k) eqn:E; simpl.
    + now rewrite String.eqb_refl.
    + now rewrite E.
Qed.

Lemma get_set_ne k k' v m :
  k <> k' -> JsMap.get k' (JsMap.set k v m) = JsMap.get k' m.
Proof.
  intros Hne. induction m as [|[k0 v0] m IH]; simpl.
  - apply String.eqb_neq in Hne. now rewrite Hne.
  - destruct (String.eqb k0 k) eqn:E; simpl.
    + apply String.eqb_eq in E; subst k0.
      apply String.eqb_neq in Hne. now rewrite Hne.
    + now rewrite IH.
Qed.

Lemma get_set k k' v m :
  JsMap.get k' (JsMap.set k v m)
  = if String.eqb k k' then Some v else JsMap.get k' m.
Proof.
  destruct (String.eqb k k') eqn:E.
  - apply String.eqb_eq in E; subst. apply get_set_eq.
  - apply String.eqb_neq in E. now apply get_set_ne.
Qed.

Lemma keys_set k v m :
  JsMap.keys (JsMap.set k v m)
  = if JsMap.has k m then JsMap.keys m else JsMap.keys m ++ [k].
Proof.
  induction m as [|[k' v'] m IH]; simpl; [reflexivity|].
  destruct (String.eqb k' k) eqn:E; simpl.
  - apply String.eqb_eq in E. now subst.
  - fold (JsMap.keys (JsMap.set k v m)). rewrite IH.
    fold (JsMap.has k m). now destruct (JsMap.has k m).
Qed.

Lemma set_set k v v' m : JsMap.set k v (JsMap.set k v' m) = JsMap.set k v m.
Proof.
  induction m as [|[k' w] m IH]; simpl.
  - now rewrite String.eqb_refl.
  - destruct (String.eqb k' k) eqn:E; simpl.
    + now rewrite String.eqb_refl.
    + now rewrite E, IH.
Qed.

Lemma has_set k v m : JsMap.has k (JsMap.set k v m) = true.
Proof. now rewrite has_get, get_set_eq. Qed.

Lemma keys_delete k m :
  JsMap.keys (JsMap.delete k m)
  = filter (fun k' => negb (String.eqb k' k)) (JsMap.keys m).
Proof.
  induction m as [|[k' v'] m IH]; simpl; [reflexivity|].
  destruct (String.eqb k' k); simpl; [exact IH|].
  f_equal. exact IH.
Qed.

Lemma has_delete k m : JsMap.has k (JsMap.delete k m) = false.
Proof.
  apply has_false_notin. rewrite keys_delete, filter_In.
  intros [_ H]. now rewrite String.eqb_refl in H.
Qed.

Lemma get_delete_eq k m : JsMap.get k (JsMap.delete k m) = None.
Proof.
  pose proof (has_delete k m) as H. rewrite has_get in H.
  now destruct (JsMap.get k (JsMap.delete k m)).
Qed.

Lemma get_delete_ne k k' m :
  k <> k' -> JsMap.get k' (JsMap.delete k m) = JsMap.get k' m.
Proof.
  intros Hne. induction m as [|[k0 v0] m IH]; simpl; [reflexivity|].
  destruct (String.eqb k0 k) eqn:E; simpl.
  - apply String.eqb_eq in E; subst k0.
    apply String.eqb_neq in Hne. now rewrite Hne.
  - now rewrite IH.
Qed.

Lemma get_delete k k' m :
  JsMap.get k' (JsMap.delete k m)
  = if String.eqb k k' then None else JsMap.get k' m.
Proof.
  destruct (String.eqb k k') eqn:E.
  - apply String.eqb_eq in E; subst. apply get_delete_eq.
  - apply String.eqb_neq in E. now apply get_delete_ne.
Qed.

Lemma delete_absent k m : JsMap.has k m = false -> JsMap.delete k m = m.
Proof.
  induction m as [|[k' v'] m IH]; simpl; [reflexivity|].
  destruct (String.eqb k' k); simpl; [discriminate|].
  intros H. now rewrite IH.
Qed.

Lemma NoDup_set k v m : NoDup (JsMap.keys m) -> NoDup (JsMap.keys (JsMap.set k v m)).
Proof.
  intros H. rewrite keys_set. destruct (JsMap.has k m) eqn:E; [exact H|].
  apply has_false_notin in E.
  apply NoDup_app; [exact H|repeat constructor; intros []|].
  intros x Hx [Hk|[]]. now subst.
Qed.

Lemma NoDup_delete k m : NoDup (JsMap.keys m) -> NoDup (JsMap.keys (JsMap.delete k m)).
Proof. intros H. rewrite keys_delete. now apply NoDup_filter. Qed.

Lemma get_In k m : In k (JsMap.keys m) -> exists v, JsMap.get k m = Some v.
Proof.
  intros H. apply has_In in H. rewrite has_get in H.
  destruct (JsMap.get k m) as [v|]; [now exists v|discriminate].
Qed.

Lemma get_Some_In k v m : JsMap.get k m = Some v -> In (k, v) m.
Proof.
  induction m as [|[k' v'] m IH]; simpl; [discriminate|].
  destruct (String.eqb k' k) eqn:E.
  - apply String.eqb_eq in E. intros [= ->]. subst. now left.
  - intros H. right. now apply IH.
Qed.

Lemma In_get k v m : NoDup (JsMap.keys m) -> In (k, v) m -> JsMap.get k m = Some v.
Proof.
  induction m as [|[k' v'] m IH]; simpl; [intros _ []|].
  intros Hnd [Heq|Hin].
  - injection Heq as -> ->. now rewrite String.eqb_refl.
  - inversion Hnd as [|? ? Hk Hnd']; subst.
    destruct (String.eqb k' k) eqn:E.
    + apply String.eqb_eq in E; subst k'. exfalso. apply Hk.
      change (In (fst (k, v)) (map fst m)). now apply in_map.
    + now apply IH.
Qed.

End Facts.

End JsMapFacts.

(** * The plugin registry *)

Import JsMapFacts.

Lemma has_keys {V W : Type} (k : string) (m1 : JsMap.t V) (m2 : JsMap.t W) :
  JsMap.keys m1 = JsMap.keys m2 -> JsMap.has k m1 = JsMap.has k m2.
Proof.
  intros H. destruct (JsMap.has k m2) eqn:E.
  - apply has_In. rewrite H. now apply has_In.
  - apply has_false_notin. rewrite H. now apply has_false_notin.
Qed.

Lemma wellFormed_new : wellFormed newPluginSystem.
Proof. split; [reflexivity|constructor]. Qed.

Lemma wellFormed_register name t desc ps :
  wellFormed ps -> wellFormed (fst (registerPlugin name t desc ps)).
Proof.
  intros [Hk Hnd]. split; simpl.
  - rewrite !keys_set, (has_keys name _ _ Hk), Hk. reflexivity.
  - now apply NoDup_set.
Qed.


Lemma wellFormed_setEnabled name en ps :
  wellFormed ps -> wellFormed (fst (fst (setPluginEnabled name en ps))).
Proof.
  intros [Hk Hnd]. unfold setPluginEnabled.
  destruct (JsMap.get name (plugins ps)) as [i|] eqn:E; simpl; [|now split].
  assert (Hhas : JsMap.has name (plugins ps) = true) by now rewrite has_get, E.
  split; simpl.
  - now rewrite keys_set, Hhas.
  - now apply NoDup_set.
Qed.

Lemma wellFormed_runOps ops ps : wellFormed ps -> wellFormed (runOps ops ps).
Proof.
  revert ps. induction ops as [|op ops IH]; intros ps H; simpl; [exact H|].
  apply IH. destruct op; simpl.
  - now apply wellFormed_register.
  - now apply wellFormed_setEnabled.
Qed.

(** C6. [registerPlugin] has no failing path.  Whatever the registry holds,
    the entry of [name] afterwards is the new tool and description, every
    other entry is as before and the key order is kept when [name] was
    present; registering over an earlier registration of [name] gives the
    registry that the later registration alone gives, so repeating a
    registration changes nothing; the console receives no error-level
    event, and its only warning is the overwrite notice, given exactly when
    [name] was already registered. *)
Theorem C6_registerPlugin_overwrites :
  forall (name : string) (t t0 : Tool) (desc desc0 : string) (ps : PluginSystem),
    let r := registerPlugin name t desc ps in
    (forall k, JsMap.get k (plugins (fst r))
               = if String.eqb name k then Some (mkInfo t desc true)
                 else JsMap.get k (plugins ps))
    /\ getToolNode name (fst r) = Some (mkToolNode [t])
    /\ JsMap.keys (plugins (fst r))
       = (if JsMap.has name (plugins ps) then JsMap.keys (plugins ps)
          else JsMap.keys (plugins ps) ++ [name])
    /\ fst (registerPlugin name t desc (fst (registerPlugin name t0 desc0 ps)))
       = fst r
    /\ fst (registerPlugin name t desc (fst r)) = fst r
    /\ existsb isErrorEvent (snd r) = false
    /\ filter isWarnEvent (snd r)
       = (if JsMap.has name (plugins ps)
          then [mkLog LWarn ("Plugin " ++ name ++ " already registered. Overwriting...")]
          else [])
    /\ snd (registerPlugin name t desc (fst r))
       = [mkLog LWarn ("Plugin " ++ name ++ " already registered. Overwriting...");
          mkLog LLog ("Plugin registered: " ++ name ++ " - " ++ desc)].
Proof.
  intros name t t0 desc desc0 ps r. subst r. unfold registerPlugin, getToolNode.
  simpl. repeat split.
  - intros k. apply get_set.
  - apply get_set_eq.
  - apply keys_set.
  - now rewrite !set_set.
  - now rewrite !set_set.
  - destruct (JsMap.has name (plugins ps)); reflexivity.
  - destruct (JsMap.has name (plugins ps)); reflexivity.
  - now rewrite has_set.
Qed.

(** C8. For a name that is not registered, [setPluginEnabled] returns
    [false], leaves the registry as it is, and only writes a warning. *)
Theorem C8_setPluginEnabled_unknown :
  forall (name : string) (en : bool) (ps : PluginSystem),
    JsMap.has name (plugins ps) = false ->
    setPluginEnabled name en ps
    = (ps, false,
       [mkLog LWarn ("Plugin " ++ name ++ " not found, can't change status.")])
    /\ existsb isErrorEvent (snd (setPluginEnabled name en ps)) = false.
Proof.
  intros name en ps H. unfold setPluginEnabled. rewrite has_get in H.
  destruct (JsMap.get name (plugins ps)); [discriminate|]. now split.
Qed.

Lemma enabledNames_filter ps :
  map ep_name (getEnabledPlugins ps)
  = JsMap.keys (filter (fun e => enabled (snd e)) (plugins ps)).
Proof.
  unfold getEnabledPlugins, JsMap.keys, JsMap.entries. rewrite map_map.
  reflexivity.
Qed.

Lemma enabledName_In ps name :
  existsb (fun p => String.eqb (ep_name p) name) (getEnabledPlugins ps) = true
  <-> In name (map ep_name (getEnabledPlugins ps)).
Proof.
  rewrite existsb_exists, in_map_iff. split; intros [p [H1 H2]]; exists p.
  - apply String.eqb_eq in H2. auto.
  - split; [exact H2|]. now apply String.eqb_eq.
Qed.

Lemma enabledName_entry ps name :
  In name (map ep_name (getEnabledPlugins ps))
  <-> exists i, In (name, i) (plugins ps) /\ enabled i = true.
Proof.
  rewrite enabledNames_filter. unfold JsMap.keys. rewrite in_map_iff. split.
  - intros [[k i] [Hk Hin]]. simpl in Hk. subst k.
    apply filter_In in Hin. destruct Hin as [Hin Hen]. now exists i.
  - intros [i [Hin Hen]]. exists (name, i). split; [reflexivity|].
    apply filter_In. now split.
Qed.

Lemma get_enabledName ps name i :
  JsMap.get name (plugins ps) = Some i -> enabled i = true ->
  In name (map ep_name (getEnabledPlugins ps)).
Proof.
  intros Hget Hen. apply enabledName_entry. exists i. split; [|exact Hen].
  now apply get_Some_In.
Qed.

Lemma enabledName_get ps name :
  NoDup (JsMap.keys (plugins ps)) ->
  In name (map ep_name (getEnabledPlugins ps)) ->
  exists i, JsMap.get name (plugins ps) = Some i /\ enabled i = true.
Proof.
  intros Hnd H. apply enabledName_entry in H. destruct H as [i [Hin Hen]].
  exists i. split; [|exact Hen]. now apply In_get.
Qed.

(** C10. Right after [registerPlugin(name, tool, description)] the plugin
    [name] is enabled, whatever the registry held; in particular, when
    [name] was registered and [setPluginEnabled(name, false)] had cleared
    its flag, registering it again sets the flag, and the console output of
    the re-registration does not mention it. *)
Theorem C10_register_enables :
  forall (name : string) (t : Tool) (desc : string) (ps : PluginSystem),
    (JsMap.get name (plugins (fst (registerPlugin name t desc ps)))
     = Some (mkInfo t desc true)
     /\ In name (map ep_name
                   (getEnabledPlugins (fst (registerPlugin name t desc ps)))))
    /\ (let disabled := fst (fst (setPluginEnabled name false ps)) in
        let r := registerPlugin name t desc disabled in
        option_map enabled (JsMap.get name (plugins disabled))
        = (if JsMap.has name (plugins ps) then Some false else None)
        /\ option_map enabled (JsMap.get name (plugins (fst r))) = Some true
        /\ In name (map ep_name (getEnabledPlugins (fst r)))
        /\ snd r
           = (if JsMap.has name (plugins ps)
              then [mkLog LWarn ("Plugin " ++ name ++ " already registered. Overwriting...")]
              else [])
             ++ [mkLog LLog ("Plugin registered: " ++ name ++ " - " ++ desc)]).
Proof.
  intros name t desc ps.
  assert (Hreg : forall ps0,
             JsMap.get name (plugins (fst (registerPlugin name t desc ps0)))
             = Some (mkInfo t desc true)).
  { intros ps0. simpl. apply get_set_eq. }
  assert (Hen : forall ps0,
             In name (map ep_name
                        (getEnabledPlugins (fst (registerPlugin name t desc ps0))))).
  { intros ps0. eapply get_enabledName; [apply Hreg|reflexivity]. }
  split; [split; [apply Hreg|apply Hen]|].
  cbv zeta. rewrite Hreg. repeat split; [| apply Hen |].
  - unfold setPluginEnabled. rewrite has_get.
    destruct (JsMap.get name (plugins ps)) as [i|] eqn:E; simpl.
    + now rewrite get_set_eq.
    + now rewrite E.
  - unfold setPluginEnabled, registerPlugin. rewrite (has_get name (plugins ps)).
    destruct (JsMap.get name (plugins ps)) as [i|] eqn:E; simpl.
    + now rewrite has_set.
    + rewrite has_get, E. reflexivity.
Qed.

(** C8 at the registry that only holds [search]. *)
Lemma C8_setPluginEnabled_unknown_witness :
  JsMap.has "calc" (plugins searchOnly) = false
  /\ setPluginEnabled "calc" true searchOnly
     = (searchOnly, false,
        [mkLog LWarn "Plugin calc not found, can't change status."]).
Proof.
  split; [reflexivity|].
  apply (C8_setPluginEnabled_unknown "calc" true searchOnly).
  reflexivity.
Defined.

(** ** Enabled tools after a history of calls *)

Lemma firstOccurrences_In x l : In x (firstOccurrences l) <-> In x l.
Proof.
  induction l as [|a l IH]; simpl; [tauto|].
  rewrite filter_In, IH. destruct (String.eqb a x) eqn:E.
  - apply String.eqb_eq in E. subst. simpl. tauto.
  - apply String.eqb_neq in E. simpl. tauto.
Qed.

Lemma mem_In x l : mem x l = true <-> In x l.
Proof.
  unfold mem. rewrite existsb_exists. split.
  - intros [y [Hin Heq]]. apply String.eqb_eq in Heq. now subst.
  - intros H. exists x. split; [exact H|apply String.eqb_refl].
Qed.

Lemma firstOccurrences_snoc l x :
  firstOccurrences (l ++ [x])
  = if mem x l then firstOccurrences l else firstOccurrences l ++ [x].
Proof.
  induction l as [|a l IH]; simpl; [reflexivity|].
  rewrite IH. destruct (String.eqb x a) eqn:E; simpl.
  - apply String.eqb_eq in E. subst a.
    destruct (mem x l); [reflexivity|].
    rewrite filter_app. simpl. rewrite String.eqb_refl. simpl.
    now rewrite app_nil_r.
  - destruct (mem x l); [reflexivity|].
    rewrite filter_app. simpl. rewrite String.eqb_sym, E. reflexivity.
Qed.

Lemma flat_map_ext_In {A B : Type} (f g : A -> list B) (l : list A) :
  (forall a, In a l -> f a = g a) -> flat_map f l = flat_map g l.
Proof.
  induction l as [|a l IH]; intros H; simpl; [reflexivity|].
  rewrite (H a (or_introl eq_refl)), IH; [reflexivity|].
  intros b Hb. apply H. now right.
Qed.

(** The enabled tools read off the keys and the lookups of the map. *)
Lemma enabledTools_by_keys ps :
  NoDup (JsMap.keys (plugins ps)) ->
  getEnabledTools ps
  = flat_map (fun k => match JsMap.get k (plugins ps) with
                       | Some i => if enabled i then [tool i] else []
                       | None => []
                       end)
             (JsMap.keys (plugins ps)).
Proof.
  unfold getEnabledTools, getEnabledPlugins, JsMap.entries. rewrite map_map.
  simpl. generalize (plugins ps) as m.
  induction m as [|[k v] m IH]; intros Hnd; [reflexivity|].
  inversion Hnd as [|? ? Hk Hnd']; subst. simpl.
  rewrite String.eqb_refl.
  rewrite (flat_map_ext_In _
             (fun k0 => match JsMap.get k0 m with
                        | Some i => if enabled i then [tool i] else []
                        | None => []
                        end)).
  - rewrite <- IH by assumption. now destruct (enabled v).
  - intros k' Hk'. destruct (String.eqb k k') eqn:E; [|reflexivity].
    apply String.eqb_eq in E. now subst.
Qed.

Lemma runOps_snoc ops op ps : runOps (ops ++ [op]) ps = applyOp (runOps ops ps) op.
Proof. unfold runOps. now rewrite fold_left_app. Qed.

Lemma currentInfo_snoc name ops op :
  currentInfo name (ops ++ [op]) = opOn name (currentInfo name ops) op.
Proof. unfold currentInfo. now rewrite fold_left_app. Qed.

(** The registry after a history: the keys are the registered names in the
    order of their first registration, and each lookup is what the history
    says about the name. *)
Lemma runOps_plugins ops :
  JsMap.keys (plugins (runOps ops newPluginSystem))
  = firstOccurrences (registeredNames ops)
  /\ forall k, JsMap.get k (plugins (runOps ops newPluginSystem))
               = currentInfo k ops.
Proof.
  induction ops as [|op ops [IHk IHg]] using rev_ind; [now split|].
  rewrite runOps_snoc. unfold registeredNames in *. rewrite flat_map_app.
  set (s := runOps ops newPluginSystem) in *.
  destruct op as [n t desc|n en]; simpl.
  - split.
    + rewrite keys_set, firstOccurrences_snoc, IHk.
      replace (JsMap.has n (plugins s))
        with (mem n (flat_map (fun op => match op with
                                         | OpRegister name _ _ => [name]
                                         | OpSetEnabled _ _ => []
                                         end) ops)); [reflexivity|].
      match goal with |- ?a = ?b => destruct a eqn:Ea; destruct b eqn:Eb end;
        try reflexivity; exfalso.
      * apply (proj1 (mem_In _ _)) in Ea.
        apply (proj2 (firstOccurrences_In _ _)) in Ea.
        rewrite <- IHk in Ea. apply (proj2 (has_In _ _)) in Ea. congruence.
      * apply (proj1 (has_In _ _)) in Eb. rewrite IHk in Eb.
        apply (proj1 (firstOccurrences_In _ _)) in Eb.
        apply (proj2 (mem_In _ _)) in Eb. congruence.
    + intros k. rewrite currentInfo_snoc, get_set, <- IHg. reflexivity.
  - rewrite app_nil_r. unfold setPluginEnabled.
    destruct (JsMap.get n (plugins s)) as [i|] eqn:E; simpl.
    + split.
      * rewrite keys_set, has_get, E. exact IHk.
      * intros k. rewrite currentInfo_snoc, get_set. simpl.
        destruct (String.eqb n k) eqn:Enk.
        -- apply String.eqb_eq in Enk. subst k. now rewrite <- IHg, E.
        -- apply IHg.
    + split; [exact IHk|].
      intros k. rewrite currentInfo_snoc. simpl.
      destruct (String.eqb n k) eqn:Enk; [|apply IHg].
      apply String.eqb_eq in Enk. subst k. now rewrite <- IHg, E.
Qed.

(** C7. After any history of registrations and enable/disable calls on a
    fresh registry, [getEnabledTools] returns the tools of the plugins that
    the history leaves enabled, in the order in which their names were first
    registered.  In scenario D it returns the search tool alone, and after
    [setPluginEnabled("calc", true)] the search tool followed by the
    calculator. *)
Theorem C7_enabledTools_registration_order :
  (forall ops : list RegistryOp,
      getEnabledTools (runOps ops newPluginSystem) = enabledToolsOf ops)
  /\ getEnabledTools (runOps scenarioD newPluginSystem) = [searchTool]
  /\ getEnabledTools
       (fst (fst (setPluginEnabled "calc" true
                    (runOps scenarioD newPluginSystem))))
     = [searchTool; calcTool].
Proof.
  split; [|split; reflexivity].
  intros ops. destruct (runOps_plugins ops) as [Hk Hg].
  rewrite enabledTools_by_keys.
  - rewrite Hk. unfold enabledToolsOf. apply flat_map_ext. intros k.
    now rewrite Hg.
  - apply (wellFormed_runOps ops _ wellFormed_new).
Qed.

(** * The reducer *)

(** C5. Merging [partialA] and then [partialB] into a state gives the same
    [messages] channel as merging once a partial state whose messages are
    those of [partialA] followed by those of [partialB], whatever else that
    partial state writes; with the scalar channels of both in the order
    written, the two states are equal altogether. *)
Theorem C5_merge_associative :
  forall (state : RunState) (partialA partialB : PartialState),
    (forall chans : list (string * string),
        st_messages (merge (merge state partialA) partialB)
        = st_messages
            (merge state
               (mkPartial (p_messages partialA ++ p_messages partialB) chans)))
    /\ merge (merge state partialA) partialB
       = merge state (combine partialA partialB).
Proof.
  intros state pa pb. split.
  - intros chans. simpl. now rewrite app_assoc.
  - unfold merge, combine. simpl. now rewrite app_assoc, fold_left_app.
Qed.

(** * The graph built from the registry *)


Lemma find_none {A : Type} (f : A -> bool) (l : list A) :
  (forall x, In x l -> f x = false) -> find f l = None.
Proof.
  induction l as [|a l IH]; intros H; simpl; [reflexivity|].
  rewrite (H a (or_introl eq_refl)). apply IH. intros x Hx. apply H. now right.
Qed.

Lemma mem_false x l : mem x l = false <-> ~ In x l.
Proof.
  rewrite <- mem_In. destruct (mem x l); split; congruence.
Qed.



Lemma foldM_addNode_inv (l : JsMap.t ToolNode) b b' :
  foldM (fun b e => addNode (fst e) (NTool (snd e)) b) l b = Ok b' ->
  b' = mkBuilder (b_nodes b ++ map toolEntry l) (b_edges b) (b_cond b).
Proof.
  revert b. induction l as [|e l IH]; intros b; simpl.
  - intros [= <-]. rewrite app_nil_r. now destruct b.
  - unfold addNode at 1. destruct (hasNode (fst e) (b_nodes b)); simpl;
      [discriminate|].
    intros H. apply IH in H. simpl in H. now rewrite <- app_assoc in H.
Qed.


Lemma foldM_addEdge_inv (l : list string) b b' :
  foldM (fun b name => addEdge name "agent" b) l b = Ok b' ->
  b' = mkBuilder (b_nodes b)
         (b_edges b ++ map (fun name => (name, "agent")) l) (b_cond b).
Proof.
  revert b. induction l as [|n l IH]; intros b; simpl.
  - intros [= <-]. rewrite app_nil_r. now destruct b.
  - unfold addEdge at 1.
    destruct (isSource n b); simpl; [|discriminate].
    destruct (isTarget "agent" b); simpl; [|discriminate].
    intros H. apply IH in H. simpl in H. now rewrite <- app_assoc in H.
Qed.



(** If [buildGraph] returns a graph, it is the tool loop over the enabled
    tool nodes. *)
Lemma buildGraph_inv ps g :
  buildGraph ps = Ok g -> g = toolLoopGraph (getEnabledToolNodes ps).
Proof.
  unfold buildGraph, JsMap.entries.
  set (tns := getEnabledToolNodes ps).
  change (addNode "agent" NAgent newBuilder)
    with (Ok (mkBuilder [("agent", NAgent)] [] [])).
  cbn [bind].
  destruct (foldM _ tns _) as [b2|] eqn:E2; [|discriminate].
  apply foldM_addNode_inv in E2. subst b2. cbn [b_nodes b_edges b_cond bind].
  unfold addEdge at 1. cbn [b_nodes b_edges b_cond].
  destruct (negb (isSource START _)); [discriminate|].
  destruct (negb (isTarget "agent" _)); [discriminate|].
  cbn [bind b_nodes b_edges b_cond app].
  unfold addConditionalEdges. cbn [b_nodes b_edges b_cond].
  destruct (find _ _); [discriminate|]. cbn [bind b_nodes b_edges b_cond app].
  destruct (foldM _ (JsMap.keys tns) _) as [b5|] eqn:E5; [|discriminate].
  apply foldM_addEdge_inv in E5. subst b5. cbn [bind b_nodes b_edges b_cond app].
  unfold compile. cbn [b_nodes b_edges b_cond].
  change (JsMap.get START ((START, "agent") :: ?l)) with (Some "agent").
  cbv beta iota.
  destruct (validationFindings _); [|discriminate].
  intros [= <-]. reflexivity.
Qed.


Lemma foldM_addNode_fresh (l : JsMap.t ToolNode) b b' :
  foldM (fun b e => addNode (fst e) (NTool (snd e)) b) l b = Ok b' ->
  forall k, In k (JsMap.keys l) -> ~ In k (map fst (b_nodes b)).
Proof.
  revert b. induction l as [|e l IH]; intros b H k Hk; simpl in *; [easy|].
  unfold addNode at 1 in H.
  destruct (hasNode (fst e) (b_nodes b)) eqn:E; simpl in H; [discriminate|].
  destruct Hk as [<-|Hk].
  - now apply mem_false.
  - intros Hin. apply (IH _ H k Hk). simpl. rewrite map_app.
    apply in_or_app. now left.
Qed.

(** A successful build means that no enabled tool node is called [agent]. *)
Lemma buildGraph_agent_fresh ps g :
  buildGraph ps = Ok g -> ~ In "agent" (JsMap.keys (getEnabledToolNodes ps)).
Proof.
  unfold buildGraph, JsMap.entries.
  change (addNode "agent" NAgent newBuilder)
    with (Ok (mkBuilder [("agent", NAgent)] [] [])).
  cbn [bind].
  destruct (foldM _ (getEnabledToolNodes ps) _) as [b2|] eqn:E2; [|discriminate].
  intros _ Hin. apply (foldM_addNode_fresh _ _ _ E2 "agent" Hin). now left.
Qed.

Lemma enabledToolNodes_keys_incl ps k :
  In k (JsMap.keys (getEnabledToolNodes ps)) ->
  In k (JsMap.keys (toolNodes ps))
  /\ exists i, JsMap.get k (plugins ps) = Some i /\ enabled i = true.
Proof.
  unfold getEnabledToolNodes, JsMap.keys, JsMap.entries.
  rewrite in_map_iff. intros [[k' tn] [Hk Hin]]. simpl in Hk. subst k'.
  apply filter_In in Hin. destruct Hin as [Hin Hen]. simpl in Hen. split.
  - change k with (fst (k, tn)). now apply in_map.
  - destruct (JsMap.get k (plugins ps)) as [i|]; [now exists i|discriminate].
Qed.

Lemma enabledToolNodes_keys_In ps k i :
  In k (JsMap.keys (toolNodes ps)) ->
  JsMap.get k (plugins ps) = Some i -> enabled i = true ->
  In k (JsMap.keys (getEnabledToolNodes ps)).
Proof.
  intros Hin Hget Hen. unfold getEnabledToolNodes, JsMap.keys, JsMap.entries in *.
  apply in_map_iff in Hin. destruct Hin as [[k' tn] [Hk Hin]]. simpl in Hk.
  subst k'. apply in_map_iff. exists (k, tn). split; [reflexivity|].
  apply filter_In. split; [exact Hin|]. simpl. now rewrite Hget.
Qed.


(** Every enabled plugin of a well-formed registry has an enabled tool
    node under its name. *)
Lemma enabledName_toolNode ps name :
  wellFormed ps ->
  In name (map ep_name (getEnabledPlugins ps)) ->
  In name (JsMap.keys (getEnabledToolNodes ps)).
Proof.
  intros [Hk Hnd] Hin.
  destruct (enabledName_get ps name Hnd Hin) as [i [Hget Hen]].
  apply (enabledToolNodes_keys_In ps name i); [|exact Hget|exact Hen].
  rewrite <- Hk. apply has_In. now rewrite has_get, Hget.
Qed.

Lemma toolNode_of_graph (tns : JsMap.t ToolNode) n tn :
  In (n, NTool tn) (cg_nodes (toolLoopGraph tns)) -> In n (JsMap.keys tns).
Proof.
  simpl. intros [H|H]; [discriminate|].
  apply in_map_iff in H. destruct H as [e [He Hin]].
  injection He as <- _. unfold JsMap.keys. now apply in_map.
Qed.

Lemma graph_of_toolNode (tns : JsMap.t ToolNode) n :
  In n (JsMap.keys tns) ->
  (exists tn, In (n, NTool tn) (cg_nodes (toolLoopGraph tns)))
  /\ In (n, n) (routeTargets (toolLoopGraph tns))
  /\ In (n, "agent") (cg_edges (toolLoopGraph tns)).
Proof.
  intros Hin. repeat split.
  - unfold JsMap.keys in Hin. apply in_map_iff in Hin.
    destruct Hin as [[k tn] [Hk Hin]]. simpl in Hk. subst k.
    exists tn. simpl. right. apply in_map_iff. now exists (n, tn).
  - unfold routeTargets. simpl. right. rewrite app_nil_r.
    apply in_map_iff. now exists n.
  - simpl. right. apply in_map_iff. now exists n.
Qed.

(** * Unregistration and compiled graphs *)



(** * Routing out of the agent node *)

Lemma lastMessage_snoc msgs m : lastMessage (msgs ++ [m]) = Some m.
Proof. unfold lastMessage. rewrite map_app. simpl. apply last_last. Qed.

(** The turn count never changes the route key. *)
Lemma routeFromAgent_key ps msgs :
  fst (routeFromAgent ps msgs)
  = match routedTool ps msgs with Some t => t | None => END end.
Proof.
  unfold routeFromAgent. destruct (routedTool ps msgs); [reflexivity|].
  now destruct (Nat.ltb 10 _).
Qed.

Lemma routedTool_first ps msgs m tc tcs :
  lastMessage msgs = Some m -> isAIMessage m = true ->
  tool_calls m = tc :: tcs ->
  routedTool ps msgs
  = if existsb (fun p => String.eqb (ep_name p) (tc_name tc))
               (getEnabledPlugins ps)
    then Some (tc_name tc) else None.
Proof. intros Hl Hai Htc. unfold routedTool. now rewrite Hl, Hai, Htc. Qed.

Lemma unregistered_not_enabled ps name :
  JsMap.has name (plugins ps) = false ->
  existsb (fun p => String.eqb (ep_name p) name) (getEnabledPlugins ps) = false.
Proof.
  intros H. destruct (existsb _ _) eqn:E; [|reflexivity].
  apply enabledName_In, enabledName_entry in E. destruct E as [i [Hin _]].
  apply has_false_notin in H. exfalso. apply H.
  change name with (fst (name, i)). unfold JsMap.keys. now apply in_map.
Qed.

(** The route key is the terminal marker when there is no last message,
    when it is not an [AIMessage], when it has no tool calls, and when its
    first tool call names no enabled plugin. *)
Lemma routeFromAgent_end ps msgs :
  match lastMessage msgs with
  | None => True
  | Some m =>
      isAIMessage m = false
      \/ match tool_calls m with
         | [] => True
         | tc :: _ =>
             existsb (fun p => String.eqb (ep_name p) (tc_name tc))
                     (getEnabledPlugins ps) = false
         end
  end ->
  fst (routeFromAgent ps msgs) = END.
Proof.
  intros H. rewrite routeFromAgent_key. unfold routedTool.
  destruct (lastMessage msgs) as [m|]; [|reflexivity].
  destruct (isAIMessage m); [|reflexivity].
  destruct H as [H|H]; [discriminate|].
  destruct (tool_calls m) as [|tc tcs]; [reflexivity|]. simpl.
  now rewrite H.
Qed.

Lemma get_map_keyed {V : Type} (f : string -> V) (l : list string) k :
  In k l -> JsMap.get k (map (fun n => (n, f n)) l) = Some (f k).
Proof.
  induction l as [|a l IH]; simpl; [intros []|].
  intros H. destruct (String.eqb a k) eqn:E.
  - apply String.eqb_eq in E. now subst.
  - apply IH. destruct H as [H|H]; [|exact H].
    apply String.eqb_neq in E. contradiction.
Qed.

(** Out of the agent node of a tool-loop graph, the terminal marker and
    every tool node name resolve to themselves. *)
Lemma resolveNext_agent (tns : JsMap.t ToolNode) a state :
  let key := fst (routeFromAgent (pluginSystem a) (st_messages state)) in
  key = END \/ In key (JsMap.keys tns) ->
  resolveNext (toolLoopGraph tns) a state "agent" = Ok key.
Proof.
  intros key H. unfold resolveNext.
  cbn [toolLoopGraph cg_cond find ce_source]. rewrite String.eqb_refl.
  cbn [ce_route ce_targets ce_default runRouter JsMap.get]. fold key.
  destruct (String.eqb END key) eqn:E.
  - apply String.eqb_eq in E. now rewrite <- E.
  - destruct H as [H|H].
    + rewrite H, String.eqb_refl in E. discriminate.
    + now rewrite (get_map_keyed (fun n => n) _ _ H).
Qed.

(** Out of a tool node the run goes back to the agent. *)
Lemma resolveNext_tool (tns : JsMap.t ToolNode) a state n :
  In n (JsMap.keys tns) -> n <> "agent" ->
  resolveNext (toolLoopGraph tns) a state n = Ok "agent".
Proof.
  intros Hin Hne. unfold resolveNext.
  cbn [toolLoopGraph cg_cond cg_edges find ce_source].
  apply not_eq_sym in Hne. apply String.eqb_neq in Hne. rewrite Hne.
  cbn [JsMap.get]. destruct (String.eqb START n); [reflexivity|].
  now rewrite (get_map_keyed (fun _ => "agent") _ _ Hin).
Qed.

Lemma get_map_keyed_none {V : Type} (f : string -> V) (l : list string) k :
  ~ In k l -> JsMap.get k (map (fun n => (n, f n)) l) = None.
Proof.
  induction l as [|a l IH]; simpl; [reflexivity|].
  intros H. destruct (String.eqb a k) eqn:E.
  - apply String.eqb_eq in E. exfalso. apply H. now left.
  - apply IH. intros Hin. apply H. now right.
Qed.

(** A route key that the graph did not have at compile time, such as the
    name of a plugin registered or enabled afterwards, is a routing error:
    the compiled graph keeps its old target map. *)
Lemma resolveNext_stale (tns : JsMap.t ToolNode) a state :
  let key := fst (routeFromAgent (pluginSystem a) (st_messages state)) in
  key <> END -> ~ In key (JsMap.keys tns) ->
  resolveNext (toolLoopGraph tns) a state "agent"
  = Err (RoutingKeyError "agent" key).
Proof.
  intros key Hend Hin. unfold resolveNext.
  cbn [toolLoopGraph cg_cond find ce_source]. rewrite String.eqb_refl.
  cbn [ce_route ce_targets ce_default runRouter JsMap.get]. fold key.
  apply not_eq_sym in Hend. apply String.eqb_neq in Hend. rewrite Hend.
  now rewrite (get_map_keyed_none (fun n => n) _ _ Hin).
Qed.

(** C2, counterexample.  The last message of [mixedCalls] is an assistant
    message with a tool call of the enabled plugin [search], yet the route
    key is the terminal marker, because the first call names [ghost]. *)
Lemma C2_route_ignores_later_calls :
  lastMessage mixedCalls
  = Some (AIMessageWithCalls EmptyString [ghostCall; searchCall])
  /\ In searchCall [ghostCall; searchCall]
  /\ In (tc_name searchCall) (map ep_name (getEnabledPlugins demoRegistry))
  /\ fst (routeFromAgent demoRegistry mixedCalls) = END
  /\ fst (routeFromAgent demoRegistry mixedCalls) <> tc_name searchCall.
Proof.
  repeat split.
  - simpl. tauto.
  - simpl. tauto.
  - discriminate.
Qed.

(** C2, amended.  When the last message is an assistant message whose first
    tool call names an enabled plugin, [routeFromAgent] returns that name;
    in the graph compiled from the registry the name is a tool node, the
    routing step out of the agent resolves to it, and every tool node has
    an edge back to the agent, which the routing step out of it takes. *)
Theorem C2_route_to_first_tool_call :
  forall (a : AgentWithPlugins) (g : CompiledGraph) (msgs : list Message)
         (chans : JsMap.t string) (m : Message) (tc : ToolCall)
         (tcs : list ToolCall),
    wellFormed (pluginSystem a) ->
    buildGraph (pluginSystem a) = Ok g ->
    lastMessage msgs = Some m ->
    isAIMessage m = true ->
    tool_calls m = tc :: tcs ->
    In (tc_name tc) (map ep_name (getEnabledPlugins (pluginSystem a))) ->
    routeFromAgent (pluginSystem a) msgs
    = (tc_name tc, [mkLog LLog ("Routing to tool: " ++ tc_name tc)])
    /\ resolveNext g a (mkState msgs chans) "agent" = Ok (tc_name tc)
    /\ (exists tn, In (tc_name tc, NTool tn) (cg_nodes g))
    /\ (forall n tn state,
           In (n, NTool tn) (cg_nodes g) ->
           In (n, "agent") (cg_edges g)
           /\ resolveNext g a state n = Ok "agent").
Proof.
  intros a g msgs chans m tc tcs Hwf Hbuild Hl Hai Htc Hen.
  pose proof (buildGraph_agent_fresh _ _ Hbuild) as Hfresh.
  apply buildGraph_inv in Hbuild. subst g.
  pose proof (enabledName_toolNode _ _ Hwf Hen) as Hnode.
  assert (Hroute : routeFromAgent (pluginSystem a) msgs
                   = (tc_name tc, [mkLog LLog ("Routing to tool: " ++ tc_name tc)])).
  { unfold routeFromAgent. rewrite (routedTool_first _ _ _ _ _ Hl Hai Htc).
    now rewrite (proj2 (enabledName_In _ _) Hen). }
  split; [exact Hroute|]. split; [|split].
  - rewrite resolveNext_agent; cbn [st_messages]; rewrite Hroute;
      [reflexivity|now right].
  - now apply graph_of_toolNode.
  - intros n tn state Hin. apply toolNode_of_graph in Hin. split.
    + now apply graph_of_toolNode.
    + apply resolveNext_tool; [exact Hin|]. intros ->. contradiction.
Qed.

(** C2 at the demonstration agent, for an answer that calls [search]. *)
Lemma C2_route_to_first_tool_call_witness :
  wellFormed (pluginSystem demoAgent)
  /\ buildGraph (pluginSystem demoAgent) = Ok demoGraph
  /\ lastMessage searchAnswer = Some (AIMessageWithCalls EmptyString [searchCall])
  /\ In (tc_name searchCall)
        (map ep_name (getEnabledPlugins (pluginSystem demoAgent)))
  /\ routeFromAgent (pluginSystem demoAgent) searchAnswer
     = ("search", [mkLog LLog "Routing to tool: search"])
  /\ resolveNext demoGraph demoAgent (mkState searchAnswer []) "agent"
     = Ok "search".
Proof.
  assert (Hwf : wellFormed (pluginSystem demoAgent)).
  { split; [reflexivity|].
    repeat constructor; simpl; intuition discriminate. }
  assert (Hen : In (tc_name searchCall)
                   (map ep_name (getEnabledPlugins (pluginSystem demoAgent)))).
  { simpl. tauto. }
  destruct (C2_route_to_first_tool_call demoAgent demoGraph searchAnswer
              [] (AIMessageWithCalls EmptyString [searchCall]) searchCall []
              Hwf eq_refl eq_refl eq_refl eq_refl Hen) as [H1 [H2 _]].
  split; [exact Hwf|]. split; [reflexivity|]. split; [reflexivity|].
  split; [exact Hen|]. split; [exact H1|exact H2].
Defined.

(** C4.  The turn count has no effect on the route key: the key is the
    routed tool if there is one and the terminal marker otherwise.  On the
    transcript [loopTranscript], with eleven assistant messages and a last
    message that calls the enabled plugin [search], the router continues
    the loop instead of ending the conversation. *)
Theorem C4_turn_threshold_not_enforced :
  (forall ps msgs,
      fst (routeFromAgent ps msgs)
      = match routedTool ps msgs with Some t => t | None => END end)
  /\ List.length (filter isAIMessage loopTranscript) = 11
  /\ Nat.ltb 10 (List.length (filter isAIMessage loopTranscript)) = true
  /\ routeFromAgent demoRegistry loopTranscript
     = ("search", [mkLog LLog "Routing to tool: search"]).
Proof.
  split; [exact routeFromAgent_key|]. repeat split.
Qed.

(** * Runs that call an unregistered tool *)

(** C1, counterexample.  The model answers with a call of [ghost], which
    is not registered and is no key of the target map, and [invoke] returns
    the state reached after the agent node instead of raising
    [RoutingKeyError]. *)
Lemma C1_ghost_call_ends_run :
  JsMap.has "ghost" (plugins (pluginSystem demoAgent)) = false
  /\ JsMap.get "ghost" (routeTargets demoGraph) = None
  /\ buildGraph (pluginSystem demoAgent) = Ok demoGraph
  /\ (exists final,
         invoke ghostLlm echoToolNode failureNote demoGraph demoAgent hiState
         = Ok final
         /\ lastMessage (st_messages final)
            = Some (AIMessageWithCalls EmptyString [ghostCall]))
  /\ forall node key,
       invoke ghostLlm echoToolNode failureNote demoGraph demoAgent hiState
       <> Err (RoutingKeyError node key).
Proof.
  split; [reflexivity|]. split; [reflexivity|]. split; [reflexivity|]. split.
  - eexists. split; vm_compute; reflexivity.
  - intros node key. vm_compute. discriminate.
Qed.

(** C1, amended.  In a graph built by [buildGraph], when the state after the
    agent node ends in a message whose first tool call names a tool that is
    not registered, [routeFromAgent] returns the terminal marker, which is a
    key of the target map; the routing step raises no [RoutingKeyError] and
    resolves to the terminal, the step leaves the state as the agent node
    made it, and the run, and so [invoke], returns that state. *)
Theorem C1_unregistered_tool_ends_run :
  forall (llm : list Tool -> list Message -> option (string * list ToolCall))
         (execToolNode : ToolNode -> list Message -> option (list Message))
         (failureMessage : string -> Message)
         (a : AgentWithPlugins) (ps0 : PluginSystem) (g : CompiledGraph)
         (state : RunState) (m : Message) (tc : ToolCall) (tcs : list ToolCall),
    buildGraph ps0 = Ok g ->
    let state' := merge state (agentNode llm a (st_messages state)) in
    lastMessage (st_messages state') = Some m ->
    tool_calls m = tc :: tcs ->
    JsMap.has (tc_name tc) (plugins (pluginSystem a)) = false ->
    fst (routeFromAgent (pluginSystem a) (st_messages state')) = END
    /\ JsMap.get END (routeTargets g) = Some END
    /\ resolveNext g a state' "agent" = Ok END
    /\ step llm execToolNode failureMessage g a state "agent" = Ok (END, state')
    /\ (forall remaining steps,
           loop llm execToolNode failureMessage (S remaining) g a "agent"
                state steps
           = Ok state')
    /\ invoke llm execToolNode failureMessage g a state = Ok state'.
Proof.
  intros llm exec fm a ps0 g state m tc tcs Hbuild state' Hl Htc Hun.
  apply buildGraph_inv in Hbuild. subst g.
  set (tns := getEnabledToolNodes ps0).
  assert (Hroute : fst (routeFromAgent (pluginSystem a) (st_messages state')) = END).
  { apply routeFromAgent_end. rewrite Hl. right. rewrite Htc.
    now apply unregistered_not_enabled. }
  assert (Hres : resolveNext (toolLoopGraph tns) a state' "agent" = Ok END).
  { rewrite resolveNext_agent; rewrite Hroute; [reflexivity|now left]. }
  assert (Hstep : step llm exec fm (toolLoopGraph tns) a state "agent"
                  = Ok (END, state')).
  { unfold step. cbn [toolLoopGraph cg_nodes JsMap.get].
    rewrite String.eqb_refl. cbn [runNode]. fold state'. now rewrite Hres. }
  assert (Hloop : forall remaining steps,
             loop llm exec fm (S remaining) (toolLoopGraph tns) a "agent"
                  state steps
             = Ok state').
  { intros remaining steps. cbn [loop].
    change (String.eqb "agent" END) with false. cbv iota. rewrite Hstep.
    destruct remaining; cbn [loop]; now rewrite String.eqb_refl. }
  split; [exact Hroute|]. split; [reflexivity|]. split; [exact Hres|].
  split; [exact Hstep|]. split; [exact Hloop|]. apply Hloop.
Qed.

(** C1 at the demonstration agent with a model that calls [ghost]. *)
Lemma C1_unregistered_tool_ends_run_witness :
  buildGraph demoRegistry = Ok demoGraph
  /\ lastMessage
       (st_messages
          (merge hiState (agentNode ghostLlm demoAgent (st_messages hiState))))
     = Some (AIMessageWithCalls EmptyString [ghostCall])
  /\ JsMap.has (tc_name ghostCall) (plugins (pluginSystem demoAgent)) = false
  /\ invoke ghostLlm echoToolNode failureNote demoGraph demoAgent hiState
     = Ok (merge hiState (agentNode ghostLlm demoAgent (st_messages hiState))).
Proof.
  assert (Hl : lastMessage
                 (st_messages
                    (merge hiState
                       (agentNode ghostLlm demoAgent (st_messages hiState))))
               = Some (AIMessageWithCalls EmptyString [ghostCall])).
  { vm_compute. reflexivity. }
  split; [reflexivity|]. split; [exact Hl|]. split; [reflexivity|].
  apply (C1_unregistered_tool_ends_run ghostLlm echoToolNode failureNote
           demoAgent demoRegistry demoGraph hiState
           (AIMessageWithCalls EmptyString [ghostCall]) ghostCall []
           eq_refl Hl eq_refl eq_refl).
Defined.

(** * The tool descriptions in the system prompt *)

(** The rendered text: one line per enabled plugin, in registry order,
    joined by single newlines. *)
Lemma buildToolDescriptions_lines ps :
  buildToolDescriptions ps
  = String.concat nl
      (map (fun e => ("- " ++ fst e ++ ": " ++ description (snd e))%string)
           (filter (fun e => enabled (snd e)) (plugins ps))).
Proof.
  unfold buildToolDescriptions, getEnabledPlugins, JsMap.entries.
  now rewrite map_map.
Qed.

Lemma getSubstitution_plain matched before after template :
  noDollar template = true ->
  getSubstitution matched before after template = template.
Proof.
  induction template as [|c rest IH]; simpl; [reflexivity|].
  destruct (Ascii.eqb c "$"%char); simpl; [discriminate|].
  intros H. now rewrite IH.
Qed.

Lemma default_prompt_split :
  splitAtFirst placeholder getDefaultSystemPrompt
  = Some (promptBefore, promptAfter).
Proof. vm_compute. reflexivity. Qed.

(** A rendered text without dollar signs takes the place of the
    placeholder of the default prompt unchanged. *)
Lemma getUpdatedSystemPrompt_plain ps :
  noDollar (buildToolDescriptions ps) = true ->
  getUpdatedSystemPrompt getDefaultSystemPrompt ps
  = (promptBefore ++ buildToolDescriptions ps ++ promptAfter)%string.
Proof.
  intros H. unfold getUpdatedSystemPrompt, js_replace.
  rewrite default_prompt_split. now rewrite getSubstitution_plain.
Qed.

(** C9.  With the plugin [dining], whose description is
    [Rate restaurants from $ to $$$], the rendered line ends in three dollar
    signs, and the text that [getUpdatedSystemPrompt] puts in place of the
    placeholder ends in two: [replace] reads [$$] in the rendered text as
    an escape for one dollar sign. *)
Theorem C9_dollar_patterns_rewritten :
  buildToolDescriptions diningRegistry
  = "- dining: Rate restaurants from $ to $$$"
  /\ getUpdatedSystemPrompt getDefaultSystemPrompt diningRegistry
     = (promptBefore ++ "- dining: Rate restaurants from $ to $$" ++ promptAfter)%string
  /\ getUpdatedSystemPrompt getDefaultSystemPrompt diningRegistry
     <> (promptBefore ++ buildToolDescriptions diningRegistry ++ promptAfter)%string.
Proof.
  split; [reflexivity|]. split; [vm_compute; reflexivity|].
  vm_compute. discriminate.
Qed.

(** * More on the registry *)

Lemma set_absent {V : Type} k (v : V) (m : JsMap.t V) :
  JsMap.has k m = false -> JsMap.set k v m = m ++ [(k, v)].
Proof.
  induction m as [|[k' v'] m IH]; simpl; [reflexivity|].
  destruct (String.eqb k' k); simpl; [discriminate|].
  intros H. now rewrite IH.
Qed.

Lemma set_same {V : Type} k (v : V) (m : JsMap.t V) :
  JsMap.get k m = Some v -> JsMap.set k v m = m.
Proof.
  induction m as [|[k' v'] m IH]; simpl; [discriminate|].
  destruct (String.eqb k' k) eqn:E.
  - apply String.eqb_eq in E. intros [= ->]. now subst.
  - intros H. now rewrite IH.
Qed.

Lemma delete_snoc {V : Type} k (v : V) (m : JsMap.t V) :
  JsMap.has k m = false -> JsMap.delete k (m ++ [(k, v)]) = m.
Proof.
  intros H. unfold JsMap.delete. rewrite filter_app. simpl.
  rewrite String.eqb_refl. simpl. rewrite app_nil_r.
  now apply (delete_absent k m).
Qed.

Lemma keys_toolNodeOf (m : JsMap.t PluginInfo) :
  JsMap.keys (map toolNodeOf m) = JsMap.keys m.
Proof. unfold JsMap.keys. rewrite map_map. reflexivity. Qed.

Lemma toolNodeOf_set k i (m : JsMap.t PluginInfo) :
  map toolNodeOf (JsMap.set k i m)
  = JsMap.set k (mkToolNode [tool i]) (map toolNodeOf m).
Proof.
  induction m as [|[k' i'] m IH]; simpl; [reflexivity|].
  destruct (String.eqb k' k); simpl; [reflexivity|]. now rewrite IH.
Qed.

Lemma toolNodeOf_delete k (m : JsMap.t PluginInfo) :
  map toolNodeOf (JsMap.delete k m) = JsMap.delete k (map toolNodeOf m).
Proof.
  induction m as [|[k' i'] m IH]; simpl; [reflexivity|].
  destruct (String.eqb k' k); simpl; [exact IH|]. now rewrite IH.
Qed.

Lemma toolNodeOf_flag k i i' (m : JsMap.t PluginInfo) :
  JsMap.get k m = Some i -> tool i' = tool i ->
  map toolNodeOf (JsMap.set k i' m) = map toolNodeOf m.
Proof.
  intros Hget Ht. rewrite toolNodeOf_set, Ht. apply set_same.
  revert Hget. induction m as [|[k' v'] m IH]; simpl; [discriminate|].
  destruct (String.eqb k' k); [|exact IH]. now intros [= ->].
Qed.

Lemma consistent_wellFormed ps : consistent ps -> wellFormed ps.
Proof.
  intros [Ht Hnd]. split; [|exact Hnd]. now rewrite Ht, keys_toolNodeOf.
Qed.

Lemma consistent_applyCall ps c : consistent ps -> consistent (applyCall ps c).
Proof.
  intros [Ht Hnd]. destruct c as [name t desc|name|name en]; simpl.
  - split; simpl.
    + now rewrite Ht, toolNodeOf_set.
    + now apply NoDup_set.
  - unfold unregisterPlugin.
    destruct (JsMap.has name (plugins ps)); simpl; [|now split].
    split; simpl.
    + now rewrite Ht, toolNodeOf_delete.
    + now apply NoDup_delete.
  - unfold setPluginEnabled.
    destruct (JsMap.get name (plugins ps)) as [i|] eqn:E; simpl; [|now split].
    split; simpl.
    + rewrite Ht. symmetry. now apply (toolNodeOf_flag name i).
    + now apply NoDup_set.
Qed.

Lemma consistent_runCalls calls ps : consistent ps -> consistent (runCalls calls ps).
Proof.
  revert ps. induction calls as [|c calls IH]; intros ps H; simpl; [exact H|].
  apply IH. now apply consistent_applyCall.
Qed.

Lemma consistent_new : consistent newPluginSystem.
Proof. split; [reflexivity|constructor]. Qed.

(** X1. Whatever registrations, unregistrations and enable/disable calls
    are made on a fresh registry, its two maps stay in step: no name is held
    twice, the tool nodes are in the order of the plugins, and
    [getToolNode(name)] is the node wrapping the tool of the plugin [name],
    and is undefined exactly when the plugin is. *)
Theorem X1_registry_maps_in_step :
  forall (calls : list RegistryCall) (name : string),
    let ps := runCalls calls newPluginSystem in
    NoDup (JsMap.keys (plugins ps))
    /\ JsMap.keys (toolNodes ps) = JsMap.keys (plugins ps)
    /\ getToolNode name ps
       = match JsMap.get name (plugins ps) with
         | Some i => Some (mkToolNode [tool i])
         | None => None
         end.
Proof.
  intros calls name ps.
  destruct (consistent_runCalls calls _ consistent_new) as [Ht Hnd].
  fold ps in Ht, Hnd. split; [exact Hnd|]. split.
  - now rewrite Ht, keys_toolNodeOf.
  - unfold getToolNode. rewrite Ht. clear Ht Hnd.
    induction (plugins ps) as [|[k i] m IH]; simpl; [reflexivity|].
    destruct (String.eqb k name); [reflexivity|exact IH].
Qed.

Lemma enabled_by_lookup ps e :
  NoDup (JsMap.keys (plugins ps)) -> In e (plugins ps) ->
  match JsMap.get (fst e) (plugins ps) with
  | Some info => enabled info
  | None => false
  end = enabled (snd e).
Proof.
  intros Hnd Hin. destruct e as [k i]. simpl.
  now rewrite (In_get k i (plugins ps) Hnd Hin).
Qed.

Lemma filter_map_commute {A B : Type} (f : A -> B) (p : B -> bool) (l : list A) :
  filter p (map f l) = map f (filter (fun x => p (f x)) l).
Proof.
  induction l as [|a l IH]; simpl; [reflexivity|].
  destruct (p (f a)); simpl; now rewrite IH.
Qed.

(** In a registry whose maps are in step, the enabled tool nodes are the
    nodes of the enabled plugins. *)
Lemma enabledToolNodes_consistent ps :
  consistent ps ->
  getEnabledToolNodes ps
  = map (fun p => (ep_name p, mkToolNode [ep_tool p])) (getEnabledPlugins ps).
Proof.
  intros [Ht Hnd]. unfold getEnabledToolNodes, getEnabledPlugins, JsMap.entries.
  rewrite Ht, filter_map_commute, map_map. simpl.
  rewrite (filter_ext_in _ (fun e => enabled (snd e))); [reflexivity|].
  intros e He. now apply (enabled_by_lookup ps e).
Qed.

(** X2. After any history of registry calls on a fresh registry, the tool
    nodes that [buildGraph] turns into graph nodes and the tools that
    [initialize] binds to the model belong to the same plugins in the same
    order: [getEnabledToolNodes()] holds, for each enabled plugin and
    nothing else, a node wrapping exactly the tool that [getEnabledTools()]
    returns for it. *)
Theorem X2_enabled_views_agree :
  forall calls : list RegistryCall,
    let ps := runCalls calls newPluginSystem in
    getEnabledToolNodes ps
    = map (fun p => (ep_name p, mkToolNode [ep_tool p])) (getEnabledPlugins ps)
    /\ map node_tools (map snd (getEnabledToolNodes ps))
       = map (fun t => [t]) (getEnabledTools ps).
Proof.
  intros calls ps.
  pose proof (enabledToolNodes_consistent ps
                (consistent_runCalls calls _ consistent_new)) as H.
  split; [exact H|]. rewrite H. unfold getEnabledTools.
  rewrite !map_map. reflexivity.
Qed.

(** X3. Registering a name that the registry does not hold and then
    unregistering it gives back the registry as it was, and the
    unregistration reports [true]. *)
Theorem X3_register_unregister_round_trip :
  forall (name : string) (t : Tool) (desc : string) (ps : PluginSystem),
    wellFormed ps ->
    JsMap.has name (plugins ps) = false ->
    unregisterPlugin name (fst (registerPlugin name t desc ps))
    = (ps, true, [mkLog LLog ("Plugin unregistered: " ++ name)]).
Proof.
  intros name t desc ps [Hk Hnd] Hhas.
  assert (Hnode : JsMap.has name (toolNodes ps) = false).
  { now rewrite <- (has_keys name (plugins ps) (toolNodes ps) Hk). }
  unfold unregisterPlugin, registerPlugin. cbn [fst plugins toolNodes].
  rewrite has_set. cbn [negb].
  rewrite (set_absent name _ (plugins ps) Hhas).
  rewrite (set_absent name _ (toolNodes ps) Hnode).
  rewrite !delete_snoc by assumption. now destruct ps.
Qed.

(** X3 at the registry of scenario D and the new name [notes]. *)
Lemma X3_register_unregister_round_trip_witness :
  wellFormed (runOps scenarioD newPluginSystem)
  /\ JsMap.has "notes" (plugins (runOps scenarioD newPluginSystem)) = false
  /\ fst (fst (unregisterPlugin "notes"
                 (fst (registerPlugin "notes" diningTool "Keep notes"
                         (runOps scenarioD newPluginSystem)))))
     = runOps scenarioD newPluginSystem.
Proof.
  assert (Hwf : wellFormed (runOps scenarioD newPluginSystem)).
  { split; [reflexivity|].
    repeat constructor; simpl; intuition discriminate. }
  split; [exact Hwf|]. split; [reflexivity|].
  rewrite (X3_register_unregister_round_trip "notes" diningTool "Keep notes"
             (runOps scenarioD newPluginSystem) Hwf eq_refl).
  reflexivity.
Defined.

(** X4. On a registered name [setPluginEnabled] returns [true] and changes
    the flag of that plugin and nothing else: its tool and description, the
    other plugins, the order of the names and the tool nodes are as before,
    and the console gets one log line and no warning. *)
Theorem X4_setPluginEnabled_changes_flag_only :
  forall (name : string) (en : bool) (ps : PluginSystem) (i : PluginInfo),
    JsMap.get name (plugins ps) = Some i ->
    let r := setPluginEnabled name en ps in
    snd (fst r) = true
    /\ (forall k, JsMap.get k (plugins (fst (fst r)))
                  = if String.eqb name k
                    then Some (mkInfo (tool i) (description i) en)
                    else JsMap.get k (plugins ps))
    /\ JsMap.keys (plugins (fst (fst r))) = JsMap.keys (plugins ps)
    /\ toolNodes (fst (fst r)) = toolNodes ps
    /\ filter isWarnEvent (snd r) = []
    /\ List.length (snd r) = 1.
Proof.
  intros name en ps i Hget r. subst r. unfold setPluginEnabled.
  rewrite Hget. cbn [fst snd plugins toolNodes]. repeat split.
  - intros k. apply get_set.
  - now rewrite keys_set, has_get, Hget.
Qed.

(** X4 at the registry of scenario D, enabling [calc]. *)
Lemma X4_setPluginEnabled_changes_flag_only_witness :
  JsMap.get "calc" (plugins (runOps scenarioD newPluginSystem))
  = Some (mkInfo calcTool "Perform mathematical calculations" false)
  /\ snd (fst (setPluginEnabled "calc" true (runOps scenarioD newPluginSystem)))
     = true.
Proof.
  split; [reflexivity|].
  apply (X4_setPluginEnabled_changes_flag_only "calc" true
           (runOps scenarioD newPluginSystem)
           (mkInfo calcTool "Perform mathematical calculations" false)
           eq_refl).
Defined.

(** X5. Setting the flag of a registered plugin to any value and then back
    to what it was gives back the registry as it was; in particular
    disabling an enabled plugin and enabling it again loses nothing. *)
Theorem X5_setPluginEnabled_restores :
  forall (name : string) (en : bool) (ps : PluginSystem) (i : PluginInfo),
    JsMap.get name (plugins ps) = Some i ->
    fst (fst (setPluginEnabled name (enabled i)
                (fst (fst (setPluginEnabled name en ps)))))
    = ps.
Proof.
  intros name en ps i Hget. unfold setPluginEnabled at 2. rewrite Hget.
  cbn [fst]. unfold setPluginEnabled. cbn [plugins toolNodes].
  rewrite get_set_eq. cbn [fst tool description plugins toolNodes].
  rewrite set_set.
  replace (mkInfo (tool i) (description i) (enabled i)) with i
    by now destruct i.
  rewrite (set_same name i (plugins ps) Hget). now destruct ps.
Qed.

(** X5 at the demonstration registry: [calc] disabled and enabled again. *)
Lemma X5_setPluginEnabled_restores_witness :
  JsMap.get "calc" (plugins demoRegistry)
  = Some (mkInfo calcTool "Perform mathematical calculations" true)
  /\ fst (fst (setPluginEnabled "calc" true
                 (fst (fst (setPluginEnabled "calc" false demoRegistry)))))
     = demoRegistry.
Proof.
  split; [reflexivity|].
  apply (X5_setPluginEnabled_restores "calc" false demoRegistry
           (mkInfo calcTool "Perform mathematical calculations" true)
           eq_refl).
Defined.

Lemma filter_keep_all {A : Type} (f : A -> bool) (l : list A) :
  (forall x, In x l -> f x = true) -> filter f l = l.
Proof.
  induction l as [|a l IH]; intros H; simpl; [reflexivity|].
  rewrite (H a (or_introl eq_refl)). f_equal. apply IH.
  intros x Hx. apply H. now right.
Qed.

(** X6. [unregisterPlugin] removes one name and keeps the rest: every other
    plugin is looked up as before and the remaining names keep their order;
    a second unregistration of the same name reports [false], warns, and
    changes nothing. *)
Theorem X6_unregister_keeps_the_rest :
  forall (name : string) (ps : PluginSystem),
    let ps1 := fst (fst (unregisterPlugin name ps)) in
    (forall k, JsMap.get k (plugins ps1)
               = if String.eqb name k then None else JsMap.get k (plugins ps))
    /\ JsMap.keys (plugins ps1)
       = filter (fun k => negb (String.eqb k name)) (JsMap.keys (plugins ps))
    /\ unregisterPlugin name ps1
       = (ps1, false,
          [mkLog LWarn ("Plugin " ++ name ++ " not found, nothing to unregister.")]).
Proof.
  intros name ps. cbv zeta. unfold unregisterPlugin.
  destruct (JsMap.has name (plugins ps)) eqn:E;
    cbn [negb fst snd plugins toolNodes].
  - split; [|split].
    + intros k. apply get_delete.
    + apply keys_delete.
    + now rewrite has_delete.
  - split; [|split].
    + intros k. destruct (String.eqb name k) eqn:Ek; [|reflexivity].
      apply String.eqb_eq in Ek. subst k. rewrite has_get in E.
      now destruct (JsMap.get name (plugins ps)).
    + symmetry. apply filter_keep_all. intros k Hk.
      apply negb_true_iff. apply String.eqb_neq. intros ->.
      apply has_false_notin in E. contradiction.
    + now rewrite E.
Qed.

Lemma allPlugins_names ps :
  map ap_name (getAllPlugins ps) = JsMap.keys (plugins ps).
Proof.
  unfold getAllPlugins, JsMap.keys, JsMap.entries. now rewrite map_map.
Qed.

Lemma In_set_same_key {V : Type} k (v v' : V) (m : JsMap.t V) :
  NoDup (JsMap.keys m) -> In (k, v') (JsMap.set k v m) -> v' = v.
Proof.
  intros Hnd Hin.
  pose proof (In_get k v' _ (NoDup_set k v m Hnd) Hin) as H.
  rewrite get_set_eq in H. now injection H.
Qed.

(** X7. Disabling a registered plugin hides it from every view of the
    enabled plugins ([getEnabledPlugins], [getEnabledTools] through it,
    [getEnabledToolNodes]) and keeps it registered: [getAllPlugins] still
    lists every name, in the same order, with the disabled one flagged
    [false], and [getToolNode] still returns its node. *)
Theorem X7_disabled_plugin_hidden_not_removed :
  forall (name : string) (ps : PluginSystem) (i : PluginInfo),
    wellFormed ps ->
    JsMap.get name (plugins ps) = Some i ->
    let ps' := fst (fst (setPluginEnabled name false ps)) in
    ~ In name (map ep_name (getEnabledPlugins ps'))
    /\ JsMap.has name (getEnabledToolNodes ps') = false
    /\ map ap_name (getAllPlugins ps') = map ap_name (getAllPlugins ps)
    /\ In (mkSummary name (description i) false) (getAllPlugins ps')
    /\ getToolNode name ps' = getToolNode name ps.
Proof.
  intros name ps i [Hk Hnd] Hget ps'.
  assert (Hps' : plugins ps'
                 = JsMap.set name (mkInfo (tool i) (description i) false)
                             (plugins ps)).
  { subst ps'. unfold setPluginEnabled. now rewrite Hget. }
  assert (Hnodes : toolNodes ps' = toolNodes ps).
  { subst ps'. unfold setPluginEnabled. now rewrite Hget. }
  assert (Hget' : JsMap.get name (plugins ps')
                  = Some (mkInfo (tool i) (description i) false)).
  { rewrite Hps'. apply get_set_eq. }
  split; [|split; [|split; [|split]]].
  - intros Hin. apply enabledName_entry in Hin.
    destruct Hin as [j [Hin Hen]]. rewrite Hps' in Hin.
    apply In_set_same_key in Hin; [|exact Hnd]. subst j. discriminate.
  - apply has_false_notin. intros Hin.
    apply enabledToolNodes_keys_incl in Hin.
    destruct Hin as [_ [j [Hj Hen]]]. rewrite Hget' in Hj.
    injection Hj as <-. discriminate.
  - rewrite !allPlugins_names, Hps', keys_set, has_get, Hget. reflexivity.
  - unfold getAllPlugins, JsMap.entries. apply in_map_iff.
    exists (name, mkInfo (tool i) (description i) false).
    split; [reflexivity|]. now apply get_Some_In.
  - unfold getToolNode. now rewrite Hnodes.
Qed.

(** X7 at the demonstration registry, disabling [calc]. *)
Lemma X7_disabled_plugin_hidden_not_removed_witness :
  wellFormed demoRegistry
  /\ JsMap.get "calc" (plugins demoRegistry)
     = Some (mkInfo calcTool "Perform mathematical calculations" true)
  /\ ~ In "calc"
         (map ep_name
            (getEnabledPlugins
               (fst (fst (setPluginEnabled "calc" false demoRegistry))))).
Proof.
  assert (Hwf : wellFormed demoRegistry).
  { split; [reflexivity|].
    repeat constructor; simpl; intuition discriminate. }
  split; [exact Hwf|]. split; [reflexivity|].
  apply (X7_disabled_plugin_hidden_not_removed "calc" demoRegistry
           (mkInfo calcTool "Perform mathematical calculations" true)
           Hwf eq_refl).
Defined.

(** * More on routing and on the agent node *)

Lemma routedTool_enabled ps msgs t :
  routedTool ps msgs = Some t -> In t (map ep_name (getEnabledPlugins ps)).
Proof.
  unfold routedTool. destruct (lastMessage msgs) as [m|]; [|discriminate].
  destruct (isAIMessage m); [|discriminate].
  destruct (tool_calls m) as [|tc tcs]; [discriminate|]. simpl.
  destruct (existsb _ _) eqn:E; [|discriminate].
  intros [= <-]. now apply enabledName_In.
Qed.

(** X8. The key that [routeFromAgent] returns is the terminal marker or the
    name of an enabled plugin, whatever the messages are.  So in the graph
    that [buildGraph] compiles from the same registry the key is always in
    the target map, mapped to itself, and the routing step out of the agent
    resolves to it and cannot fail. *)
Theorem X8_route_key_always_resolves :
  forall (a : AgentWithPlugins) (g : CompiledGraph) (state : RunState),
    wellFormed (pluginSystem a) ->
    buildGraph (pluginSystem a) = Ok g ->
    let key := fst (routeFromAgent (pluginSystem a) (st_messages state)) in
    (key = END \/ In key (map ep_name (getEnabledPlugins (pluginSystem a))))
    /\ JsMap.get key (routeTargets g) = Some key
    /\ resolveNext g a state "agent" = Ok key.
Proof.
  intros a g state Hwf Hbuild key.
  apply buildGraph_inv in Hbuild. subst g.
  assert (Hkey : key = END
                 \/ In key (map ep_name (getEnabledPlugins (pluginSystem a)))).
  { subst key. rewrite routeFromAgent_key.
    destruct (routedTool _ _) as [t|] eqn:E; [right|now left].
    now apply (routedTool_enabled _ (st_messages state)). }
  assert (Hnode : key = END
                  \/ In key (JsMap.keys (getEnabledToolNodes (pluginSystem a)))).
  { destruct Hkey as [H|H]; [now left|right].
    now apply enabledName_toolNode. }
  split; [exact Hkey|]. split.
  - unfold routeTargets. cbn [toolLoopGraph cg_cond flat_map ce_targets].
    rewrite app_nil_r. cbn [JsMap.get].
    destruct (String.eqb END key) eqn:E.
    + apply String.eqb_eq in E. now rewrite <- E.
    + destruct Hnode as [H|H].
      * rewrite H, String.eqb_refl in E. discriminate.
      * now rewrite (get_map_keyed (fun n => n) _ _ H).
  - now apply resolveNext_agent.
Qed.

(** X8 at the demonstration agent and a transcript calling [search]. *)
Lemma X8_route_key_always_resolves_witness :
  wellFormed (pluginSystem demoAgent)
  /\ buildGraph (pluginSystem demoAgent) = Ok demoGraph
  /\ resolveNext demoGraph demoAgent (mkState loopTranscript []) "agent"
     = Ok "search".
Proof.
  assert (Hwf : wellFormed (pluginSystem demoAgent)).
  { split; [reflexivity|].
    repeat constructor; simpl; intuition discriminate. }
  split; [exact Hwf|]. split; [reflexivity|].
  apply (X8_route_key_always_resolves demoAgent demoGraph
           (mkState loopTranscript []) Hwf eq_refl).
Defined.

Lemma existsb_snoc {A : Type} (f : A -> bool) (l : list A) (x : A) :
  existsb f (l ++ [x]) = existsb f l || f x.
Proof. rewrite existsb_app. simpl. now rewrite orb_false_r. Qed.

(** What [agentNode] returns: the messages it was given, behind a system
    message if they had none, and one assistant message at the end. *)
Lemma agentNode_shape llm a msgs :
  exists answer,
    isAIMessage answer = true
    /\ p_messages (agentNode llm a msgs)
       = (if existsb isSystemMessage msgs then msgs
          else SystemMessage (getUpdatedSystemPrompt (systemPrompt a)
                                                     (pluginSystem a))
               :: msgs)
         ++ [answer]
    /\ p_channels (agentNode llm a msgs) = [].
Proof.
  unfold agentNode. destruct (existsb isSystemMessage msgs); cbn [negb];
    destruct (llm _ _) as [[c tcs]|];
    [exists (AIMessageWithCalls c tcs)|exists (AIMessage fallbackAnswer)
    |exists (AIMessageWithCalls c tcs)|exists (AIMessage fallbackAnswer)];
    split; try reflexivity; split; reflexivity.
Qed.

(** X9. [agentNode] never drops or reorders a message and puts the system
    prompt in at most once: its output always holds a system message and
    ends with one new assistant message, and when it is run again on that
    output, with or without further messages behind it, it only adds one
    assistant message at the end. *)
Theorem X9_agentNode_system_prompt_once :
  forall (llm : list Tool -> list Message -> option (string * list ToolCall))
         (a : AgentWithPlugins) (msgs extra : list Message),
    let out := p_messages (agentNode llm a msgs) in
    existsb isSystemMessage out = true
    /\ (exists front answer,
           out = front ++ msgs ++ [answer]
           /\ isAIMessage answer = true
           /\ List.length front <= 1)
    /\ exists answer',
         isAIMessage answer' = true
         /\ p_messages (agentNode llm a (out ++ extra))
            = out ++ extra ++ [answer'].
Proof.
  intros llm a msgs extra out.
  destruct (agentNode_shape llm a msgs) as [answer [Hai [Hout _]]].
  fold out in Hout.
  assert (Hsys : existsb isSystemMessage out = true).
  { rewrite Hout, existsb_snoc.
    destruct (existsb isSystemMessage msgs) eqn:E; [now rewrite E|reflexivity]. }
  split; [exact Hsys|]. split.
  - destruct (existsb isSystemMessage msgs).
    + exists [], answer. repeat split; auto.
    + exists [SystemMessage (getUpdatedSystemPrompt (systemPrompt a)
                                                    (pluginSystem a))], answer.
      repeat split; auto.
  - destruct (agentNode_shape llm a (out ++ extra)) as [answer' [Hai' [Hout' _]]].
    exists answer'. split; [exact Hai'|]. rewrite Hout'.
    rewrite existsb_app, Hsys. cbn [orb]. now rewrite <- app_assoc.
Qed.

(** X10. When the model call fails, [agentNode] answers with the fixed
    apology, which carries no tool call, so [routeFromAgent] ends the run on
    it, whatever the registry holds and whatever precedes the output in the
    state. *)
Theorem X10_model_failure_ends_run :
  forall (llm : list Tool -> list Message -> option (string * list ToolCall))
         (a : AgentWithPlugins) (ps : PluginSystem)
         (msgs before : list Message),
    (forall ms, llm (boundTools a) ms = None) ->
    lastMessage (p_messages (agentNode llm a msgs))
    = Some (AIMessage fallbackAnswer)
    /\ fst (routeFromAgent ps (before ++ p_messages (agentNode llm a msgs)))
       = END.
Proof.
  intros llm a ps msgs before Hfail.
  assert (Hout : exists front,
             p_messages (agentNode llm a msgs)
             = front ++ [AIMessage fallbackAnswer]).
  { unfold agentNode. rewrite Hfail. cbn [p_messages]. now eexists. }
  destruct Hout as [front Hout]. rewrite Hout. split.
  - apply lastMessage_snoc.
  - apply routeFromAgent_end. rewrite app_assoc, lastMessage_snoc.
    right. exact I.
Qed.

(** X10 with a model that always fails. *)
Lemma X10_model_failure_ends_run_witness :
  fst (routeFromAgent demoRegistry
         (p_messages (agentNode (fun _ _ => None) demoAgent
                        [HumanMessage "hi"])))
  = END.
Proof.
  apply (X10_model_failure_ends_run (fun _ _ => None) demoAgent demoRegistry
           [HumanMessage "hi"] [] (fun _ => eq_refl)).
Defined.

(** * More on the system prompt *)

Lemma string_app_assoc (s1 s2 s3 : string) :
  ((s1 ++ s2) ++ s3 = s1 ++ (s2 ++ s3))%string.
Proof. induction s1 as [|c s1 IH]; simpl; [reflexivity|]. now rewrite IH. Qed.

Lemma prefix_nil (s : string) : String.prefix EmptyString s = true.
Proof. now destruct s. Qed.

Lemma prefix_append (p s : string) : String.prefix p (p ++ s) = true.
Proof.
  induction p as [|c p IH]; simpl; [apply prefix_nil|].
  destruct (ascii_dec c c); [exact IH|contradiction].
Qed.

Lemma string_drop_append (p s : string) :
  string_drop (String.length p) (p ++ s) = s.
Proof. induction p as [|c p IH]; simpl; [reflexivity|exact IH]. Qed.

Lemma prefix_placeholder_other c s :
  Ascii.eqb c "{"%char = false -> String.prefix placeholder (String c s) = false.
Proof.
  intros H. unfold placeholder. cbn [String.prefix].
  destruct (ascii_dec "{"%char c) as [<-|]; [discriminate|reflexivity].
Qed.

(** The first occurrence of the placeholder in a text that has no opening
    brace before it. *)
Lemma splitAtFirst_noBrace (before after : string) :
  noBrace before = true ->
  splitAtFirst placeholder (before ++ placeholder ++ after)
  = Some (before, after).
Proof.
  induction before as [|c before IH]; intros H.
  - cbn [append]. destruct (placeholder ++ after)%string eqn:E.
    + discriminate.
    + rewrite <- E. cbn [splitAtFirst]. unfold splitAtFirst.
      rewrite E. rewrite <- E. rewrite prefix_append, string_drop_append.
      reflexivity.
  - simpl in H. apply andb_true_iff in H. destruct H as [Hc Hrest].
    apply negb_true_iff in Hc. cbn [append splitAtFirst].
    rewrite (prefix_placeholder_other c _ Hc), (IH Hrest). reflexivity.
Qed.

Lemma splitAtFirst_none (s : string) :
  noBrace s = true -> splitAtFirst placeholder s = None.
Proof.
  induction s as [|c s IH]; intros H; [reflexivity|].
  simpl in H. apply andb_true_iff in H. destruct H as [Hc Hrest].
  apply negb_true_iff in Hc. cbn [splitAtFirst].
  rewrite (prefix_placeholder_other c _ Hc), (IH Hrest). reflexivity.
Qed.

(** X11. In any system prompt, [getUpdatedSystemPrompt] replaces the first
    placeholder only: when no opening brace comes before it and the
    rendered descriptions hold no dollar sign, the result is the text before
    the placeholder, the descriptions, and the text after it unchanged,
    further placeholders included. *)
Theorem X11_first_placeholder_only :
  forall (before after : string) (ps : PluginSystem),
    noBrace before = true ->
    noDollar (buildToolDescriptions ps) = true ->
    getUpdatedSystemPrompt (before ++ placeholder ++ after) ps
    = (before ++ buildToolDescriptions ps ++ after)%string.
Proof.
  intros before after ps Hb Hd. unfold getUpdatedSystemPrompt, js_replace.
  rewrite (splitAtFirst_noBrace before after Hb).
  now rewrite getSubstitution_plain.
Qed.

(** X11 on a prompt with two placeholders. *)
Lemma X11_first_placeholder_only_witness :
  getUpdatedSystemPrompt ("Tools: {tool_descriptions}; again: {tool_descriptions}")
                         searchOnly
  = "Tools: - search: Search the web; again: {tool_descriptions}".
Proof.
  apply (X11_first_placeholder_only "Tools: " "; again: {tool_descriptions}"
           searchOnly eq_refl eq_refl).
Defined.

(** X12. A system prompt without the placeholder, here one without any
    opening brace, is returned as it is: the tool descriptions are left out
    of the prompt without notice. *)
Theorem X12_prompt_without_placeholder_unchanged :
  forall (prompt : string) (ps : PluginSystem),
    noBrace prompt = true ->
    getUpdatedSystemPrompt prompt ps = prompt.
Proof.
  intros prompt ps H. unfold getUpdatedSystemPrompt, js_replace.
  now rewrite (splitAtFirst_none prompt H).
Qed.

(** X12 on a custom prompt. *)
Lemma X12_prompt_without_placeholder_unchanged_witness :
  getUpdatedSystemPrompt "You are a terse assistant." demoRegistry
  = "You are a terse assistant.".
Proof.
  apply (X12_prompt_without_placeholder_unchanged
           "You are a terse assistant." demoRegistry eq_refl).
Defined.

Lemma concat_snoc (sep : string) (l : list string) (x : string) :
  String.concat sep (l ++ [x])
  = match l with
    | [] => x
    | _ :: _ => (String.concat sep l ++ sep ++ x)%string
    end.
Proof.
  induction l as [|a l IH]; [reflexivity|].
  destruct l as [|b l].
  - reflexivity.
  - change (String.concat sep ((a :: b :: l) ++ [x]))
      with (a ++ sep ++ String.concat sep ((b :: l) ++ [x]))%string.
    rewrite IH.
    change (String.concat sep (a :: b :: l))
      with (a ++ sep ++ String.concat sep (b :: l))%string.
    now rewrite !string_app_assoc.
Qed.

Lemma enabledPlugins_register_fresh name t desc ps :
  JsMap.has name (plugins ps) = false ->
  getEnabledPlugins (fst (registerPlugin name t desc ps))
  = getEnabledPlugins ps ++ [mkEnabled name t desc].
Proof.
  intros H. unfold getEnabledPlugins, registerPlugin, JsMap.entries.
  cbn [fst plugins]. rewrite (set_absent name _ _ H), filter_app, map_app.
  reflexivity.
Qed.

(** X13. Registering a name that the registry does not hold adds the new
    plugin at the end of the enabled plugins and exactly one line at the end
    of the rendered descriptions, behind a newline when there were lines
    before. *)
Theorem X13_fresh_registration_appends_line :
  forall (name : string) (t : Tool) (desc : string) (ps : PluginSystem),
    JsMap.has name (plugins ps) = false ->
    let ps' := fst (registerPlugin name t desc ps) in
    getEnabledTools ps' = getEnabledTools ps ++ [t]
    /\ buildToolDescriptions ps'
       = match getEnabledPlugins ps with
         | [] => ("- " ++ name ++ ": " ++ desc)%string
         | _ :: _ =>
             (buildToolDescriptions ps ++ nl ++ "- " ++ name ++ ": " ++ desc)%string
         end.
Proof.
  intros name t desc ps H ps'. subst ps'.
  unfold getEnabledTools, buildToolDescriptions.
  rewrite (enabledPlugins_register_fresh name t desc ps H), !map_app. split.
  - reflexivity.
  - cbn [map]. rewrite concat_snoc.
    now destruct (getEnabledPlugins ps).
Qed.

(** X13 at the registry that holds [search], adding [calc]. *)
Lemma X13_fresh_registration_appends_line_witness :
  JsMap.has "calc" (plugins searchOnly) = false
  /\ buildToolDescriptions
       (fst (registerPlugin "calc" calcTool "Do sums" searchOnly))
     = (buildToolDescriptions searchOnly ++ nl ++ "- calc: Do sums")%string.
Proof.
  split; [reflexivity|].
  apply (X13_fresh_registration_appends_line "calc" calcTool "Do sums"
           searchOnly eq_refl).
Defined.

(** * Runs of the tool loop *)

Lemma get_map_keyed_inv {V : Type} (f : string -> V) (l : list string) k v :
  JsMap.get k (map (fun n => (n, f n)) l) = Some v -> In k l /\ v = f k.
Proof.
  induction l as [|a l IH]; simpl; [discriminate|].
  destruct (String.eqb a k) eqn:E.
  - apply String.eqb_eq in E. subst a. intros [= <-]. split; [now left|reflexivity].
  - intros H. destruct (IH H) as [Hin Hv]. split; [now right|exact Hv].
Qed.

(** Out of the agent node of a tool-loop graph the run goes to the terminal
    marker or to one of the tool nodes of the graph, whatever the registry
    holds by then. *)
Lemma resolveNext_agent_range (tns : JsMap.t ToolNode) a state next :
  resolveNext (toolLoopGraph tns) a state "agent" = Ok next ->
  next = END \/ In next (JsMap.keys tns).
Proof.
  unfold resolveNext.
  cbn [toolLoopGraph cg_cond find ce_source]. rewrite String.eqb_refl.
  cbn [ce_route ce_targets ce_default runRouter JsMap.get].
  destruct (String.eqb END _) eqn:E.
  - intros [= <-]. now left.
  - destruct (JsMap.get _ _) as [t|] eqn:G; [|discriminate].
    intros [= <-]. apply (get_map_keyed_inv (fun n => n)) in G.
    destruct G as [Hin ->]. now right.
Qed.

Lemma startsWith_merge first state partial :
  startsWith first state -> startsWith first (merge state partial).
Proof.
  intros [rest H]. exists (rest ++ p_messages partial). simpl. now rewrite H.
Qed.

Lemma framed_after_agent llm first state a :
  startsWith first state ->
  framed first (merge state (agentNode llm a (st_messages state))).
Proof.
  intros [rest H].
  destruct (agentNode_shape llm a (st_messages state)) as [answer [Hai [Hout _]]].
  exists (rest ++ removelast (p_messages (agentNode llm a (st_messages state)))),
    answer.
  split; [|exact Hai]. unfold merge. cbn [st_messages].
  rewrite Hout at 2. rewrite removelast_last. rewrite Hout.
  rewrite H at 1. cbn [app]. rewrite app_assoc. reflexivity.
Qed.

Lemma framed_startsWith first state : framed first state -> startsWith first state.
Proof. intros [middle [answer [H _]]]. exists (middle ++ [answer]). exact H. Qed.

Lemma framed_loop llm exec fm (tns : JsMap.t ToolNode) a first :
  ~ In "agent" (JsMap.keys tns) ->
  forall remaining current state steps final,
    (current = "agent" /\ startsWith first state)
    \/ ((current = END \/ In current (JsMap.keys tns)) /\ framed first state) ->
    loop llm exec fm remaining (toolLoopGraph tns) a current state steps
    = Ok final ->
    framed first final.
Proof.
  intros Hfresh. induction remaining as [|remaining IH];
    intros current state steps final Hcur Hloop; cbn [loop] in Hloop.
  - destruct (String.eqb current END) eqn:E; [|discriminate].
    injection Hloop as <-. destruct Hcur as [[-> _]|[_ H]]; [discriminate|exact H].
  - destruct (String.eqb current END) eqn:E.
    + injection Hloop as <-.
      destruct Hcur as [[-> _]|[_ H]]; [discriminate|exact H].
    + destruct (step llm exec fm (toolLoopGraph tns) a state current)
        as [[next state']|] eqn:Hstep; [|discriminate].
      apply (IH next state' (S steps) final); [|exact Hloop].
      unfold step in Hstep.
      destruct (JsMap.get current (cg_nodes (toolLoopGraph tns))) as [fn|] eqn:Hfn;
        [|discriminate].
      destruct Hcur as [[-> Hstart]|[[->|Hin] Hframed]].
      * cbn [toolLoopGraph cg_nodes JsMap.get] in Hfn.
        rewrite String.eqb_refl in Hfn. injection Hfn as <-.
        cbn [runNode] in Hstep.
        destruct (resolveNext _ _ _ _) as [next'|] eqn:Hres; [|discriminate].
        cbn [bind] in Hstep. injection Hstep as <- <-.
        right. split.
        -- now apply resolveNext_agent_range in Hres.
        -- now apply framed_after_agent.
      * rewrite String.eqb_refl in E. discriminate.
      * assert (Hne : current <> "agent") by (intros ->; contradiction).
        rewrite (resolveNext_tool tns a _ current Hin Hne) in Hstep.
        cbn [bind] in Hstep. injection Hstep as <- <-.
        left. split; [reflexivity|].
        destruct (runNode llm exec fn a state);
          now apply startsWith_merge, framed_startsWith.
Qed.

(** X14. On an agent that holds a graph built by [buildGraph], [run] always
    returns: an error of the engine, the recursion limit included, never
    leaves [run], and the agent is not changed.  The transcript returned
    begins with the user's message and ends with an assistant message,
    whether the run ended by itself or in the [catch] branch. *)
Theorem X14_run_returns_framed_transcript :
  forall (llm : list Tool -> list Message -> option (string * list ToolCall))
         (execToolNode : ToolNode -> list Message -> option (list Message))
         (failureMessage : string -> Message)
         (errorText : GraphError -> string) (nullGraphText : string)
         (a : AgentWithPlugins) (ps0 : PluginSystem) (g : CompiledGraph)
         (message : string),
    graph a = Some g ->
    buildGraph ps0 = Ok g ->
    exists final middle answer,
      run llm execToolNode failureMessage errorText nullGraphText a message
      = Ok (a, final)
      /\ st_messages final = HumanMessage message :: middle ++ [answer]
      /\ isAIMessage answer = true.
Proof.
  intros llm exec fm errorText nullText a ps0 g message Hg Hbuild.
  pose proof (buildGraph_agent_fresh _ _ Hbuild) as Hfresh.
  apply buildGraph_inv in Hbuild. subst g.
  unfold run. rewrite Hg. cbn [bind]. rewrite Hg. unfold invokeOrApologize.
  destruct (invoke llm exec fm _ a _) as [final|e] eqn:Hinv.
  - assert (Hframed : framed (HumanMessage message) final).
    { unfold invoke in Hinv.
      apply (framed_loop llm exec fm _ a (HumanMessage message) Hfresh _ _ _ _ _)
        with (2 := Hinv).
      left. split; [reflexivity|]. now exists []. }
    destruct Hframed as [middle [answer [Hm Hai]]].
    now exists final, middle, answer.
  - exists (apology message (errorText e)), [],
      (AIMessage (runFailureAnswer (errorText e))).
    repeat split.
Qed.

(** X14 at the demonstration agent with the model that calls [ghost]. *)
Lemma X14_run_returns_framed_transcript_witness :
  exists final,
    run ghostLlm echoToolNode failureNote (fun _ => "error") "no graph"
        demoAgent "hi"
    = Ok (demoAgent, final).
Proof.
  destruct (X14_run_returns_framed_transcript ghostLlm echoToolNode failureNote
              (fun _ => "error") "no graph" demoAgent demoRegistry demoGraph
              "hi" eq_refl eq_refl) as [final [_ [_ [H _]]]].
  now exists final.
Defined.

(** * Plugins made from functions and the built-in plugins *)

Lemma get_enabledTool ps name i :
  JsMap.get name (plugins ps) = Some i -> enabled i = true ->
  In (tool i) (getEnabledTools ps).
Proof.
  intros Hget Hen. unfold getEnabledTools, getEnabledPlugins, JsMap.entries.
  rewrite map_map. apply in_map_iff. exists (name, i). split; [reflexivity|].
  apply filter_In. split; [now apply get_Some_In|exact Hen].
Qed.

(** X15. A plugin made by [registerFunctionPlugin] is registered under the
    name its tool carries, so an answer of the model whose first call names
    that tool is routed to the plugin's node, which wraps the tool, and the
    tool is among those that [initialize] binds; the compiled graph is not
    touched. *)
Theorem X15_function_plugin_is_routable :
  forall (name desc : string) (a : AgentWithPlugins) (msgs : list Message)
         (m : Message) (tc : ToolCall) (tcs : list ToolCall),
    lastMessage msgs = Some m ->
    isAIMessage m = true ->
    tool_calls m = tc :: tcs ->
    tc_name tc = tool_name (createCustomTool name desc) ->
    let a' := registerFunctionPlugin name desc a in
    fst (routeFromAgent (pluginSystem a') msgs) = name
    /\ getToolNode name (pluginSystem a')
       = Some (mkToolNode [createCustomTool name desc])
    /\ In (createCustomTool name desc) (getEnabledTools (pluginSystem a'))
    /\ graph a' = graph a.
Proof.
  intros name desc a msgs m tc tcs Hl Hai Htc Hname a'.
  assert (Hget : JsMap.get name (plugins (pluginSystem a'))
                 = Some (mkInfo (createCustomTool name desc) desc true)).
  { subst a'. simpl. apply get_set_eq. }
  split; [|split; [|split]].
  - rewrite routeFromAgent_key, (routedTool_first _ _ _ _ _ Hl Hai Htc), Hname.
    cbn [createCustomTool tool_name].
    rewrite (proj2 (enabledName_In _ _)); [reflexivity|].
    now apply (get_enabledName _ _ _ Hget).
  - subst a'. unfold getToolNode. simpl. apply get_set_eq.
  - now apply (get_enabledTool _ _ _ Hget).
  - reflexivity.
Qed.

(** X15 for a plugin [random_number] on a fresh agent. *)
Lemma X15_function_plugin_is_routable_witness :
  fst (routeFromAgent
         (pluginSystem
            (registerFunctionPlugin "random_number" "Generate a random number"
               (newAgent None)))
         [HumanMessage "roll";
          AIMessageWithCalls EmptyString [mkToolCall "c1" "random_number" "{}"]])
  = "random_number".
Proof.
  apply (X15_function_plugin_is_routable "random_number"
           "Generate a random number" (newAgent None)
           [HumanMessage "roll";
            AIMessageWithCalls EmptyString [mkToolCall "c1" "random_number" "{}"]]
           (AIMessageWithCalls EmptyString [mkToolCall "c1" "random_number" "{}"])
           (mkToolCall "c1" "random_number" "{}") []
           eq_refl eq_refl eq_refl eq_refl).
Defined.

Lemma builtIn_lookup {V : Type} (v1 v2 v3 : V) (m : JsMap.t V) k :
  JsMap.get k (JsMap.set "time" v3
                 (JsMap.set "calculator" v2 (JsMap.set "search" v1 m)))
  = if String.eqb "time" k then Some v3
    else if String.eqb "calculator" k then Some v2
    else if String.eqb "search" k then Some v1
    else JsMap.get k m.
Proof. now rewrite !get_set. Qed.

Lemma builtIn_again {V : Type} (v1 v2 v3 : V) (m : JsMap.t V) :
  let m3 := JsMap.set "time" v3
              (JsMap.set "calculator" v2 (JsMap.set "search" v1 m)) in
  JsMap.set "time" v3 (JsMap.set "calculator" v2 (JsMap.set "search" v1 m3))
  = m3.
Proof.
  intros m3.
  rewrite (set_same "search" v1 m3) by (subst m3; now rewrite builtIn_lookup).
  rewrite (set_same "calculator" v2 m3) by (subst m3; now rewrite builtIn_lookup).
  apply set_same. subst m3. now rewrite builtIn_lookup.
Qed.

Lemma registerBuiltInPlugins_lookup a k :
  JsMap.get k (plugins (pluginSystem (registerBuiltInPlugins a)))
  = if String.eqb "time" k
    then Some (mkInfo timeTool "Get the current time and date" true)
    else if String.eqb "calculator" k
    then Some (mkInfo calcTool "Perform mathematical calculations" true)
    else if String.eqb "search" k
    then Some (mkInfo searchTool "Search the web for current information" true)
    else JsMap.get k (plugins (pluginSystem a)).
Proof.
  unfold registerBuiltInPlugins, agentRegister, registerPlugin.
  cbn [fst pluginSystem plugins]. apply builtIn_lookup.
Qed.

(** X16. [registerBuiltInPlugins] leaves [search], [calculator] and [time]
    registered and enabled with their tools, whatever the registry held
    under these names, and every other plugin as it was; calling it a
    second time changes nothing, and the compiled graph is never touched. *)
Theorem X16_built_in_plugins_idempotent :
  forall a : AgentWithPlugins,
    let a1 := registerBuiltInPlugins a in
    registerBuiltInPlugins a1 = a1
    /\ (forall k,
           JsMap.get k (plugins (pluginSystem a1))
           = if String.eqb "time" k
             then Some (mkInfo timeTool "Get the current time and date" true)
             else if String.eqb "calculator" k
             then Some (mkInfo calcTool "Perform mathematical calculations" true)
             else if String.eqb "search" k
             then Some (mkInfo searchTool
                               "Search the web for current information" true)
             else JsMap.get k (plugins (pluginSystem a)))
    /\ graph a1 = graph a.
Proof.
  intros a a1. split; [|split].
  - subst a1. unfold registerBuiltInPlugins, agentRegister, registerPlugin.
    cbn [fst pluginSystem plugins toolNodes systemPrompt boundTools graph].
    now rewrite !builtIn_again.
  - intros k. apply registerBuiltInPlugins_lookup.
  - reflexivity.
Qed.

(** X17. The built-in time tool is bound to the model under its own name
    [current_time] but registered as the plugin [time].  Unless a plugin
    called [current_time] is registered as well, an answer of the model
    whose first call names the tool is not routed to any node: the router
    returns the terminal marker. *)
Theorem X17_time_tool_call_not_routed :
  forall (a : AgentWithPlugins) (msgs : list Message) (m : Message)
         (tc : ToolCall) (tcs : list ToolCall),
    JsMap.has "current_time" (plugins (pluginSystem a)) = false ->
    lastMessage msgs = Some m ->
    tool_calls m = tc :: tcs ->
    tc_name tc = tool_name timeTool ->
    let a1 := registerBuiltInPlugins a in
    In timeTool (getEnabledTools (pluginSystem a1))
    /\ fst (routeFromAgent (pluginSystem a1) msgs) = END.
Proof.
  intros a msgs m tc tcs Hno Hl Htc Hname a1.
  pose proof (registerBuiltInPlugins_lookup a) as Hget. fold a1 in Hget.
  split.
  - apply (get_enabledTool _ "time"
             (mkInfo timeTool "Get the current time and date" true));
      [|reflexivity].
    now rewrite Hget.
  - apply routeFromAgent_end. rewrite Hl. right. rewrite Htc, Hname.
    apply unregistered_not_enabled. rewrite has_get, Hget.
    cbn [timeTool createCustomTool tool_name].
    change (String.eqb "time" "current_time") with false.
    change (String.eqb "calculator" "current_time") with false.
    change (String.eqb "search" "current_time") with false.
    cbv iota. rewrite has_get in Hno.
    now destruct (JsMap.get "current_time" (plugins (pluginSystem a))).
Qed.

(** X17 on a fresh agent. *)
Lemma X17_time_tool_call_not_routed_witness :
  JsMap.has "current_time" (plugins (pluginSystem (newAgent None))) = false
  /\ In timeTool
        (getEnabledTools (pluginSystem (registerBuiltInPlugins (newAgent None))))
  /\ fst (routeFromAgent
            (pluginSystem (registerBuiltInPlugins (newAgent None)))
            [HumanMessage "What time is it now?";
             AIMessageWithCalls EmptyString [mkToolCall "c1" "current_time" "{}"]])
     = END.
Proof.
  split; [reflexivity|].
  apply (X17_time_tool_call_not_routed (newAgent None)
           [HumanMessage "What time is it now?";
            AIMessageWithCalls EmptyString [mkToolCall "c1" "current_time" "{}"]]
           (AIMessageWithCalls EmptyString [mkToolCall "c1" "current_time" "{}"])
           (mkToolCall "c1" "current_time" "{}") []
           eq_refl eq_refl eq_refl eq_refl).
Defined.

(** * The notepad tool *)

Section NotepadFacts.

Variable parseParams : string -> option NotepadParams.
Variable stringifyNote : Note -> string.
Variable stringifyNotes : list Note -> string.

(** Every call keeps the notes or adds one note at the end, numbered with
    the new length. *)
Lemma notepadFunc_grows notes now input :
  fst (notepadFunc parseParams stringifyNote stringifyNotes notes now input) = notes
  \/ exists t, fst (notepadFunc parseParams stringifyNote stringifyNotes notes now input)
               = notes ++ [mkNote (List.length notes + 1) t now].
Proof.
  unfold notepadFunc. destruct (parseParams input) as [params|]; [|now left].
  destruct (isAction "save" params).
  - destruct (np_text params) as [[|c t]|]; [now left| |now left].
    right. now exists (String c t).
  - destruct (isAction "get" params); [|now left].
    destruct (np_id params) as [id|]; [|now left].
    destruct (Z.eqb id 0); [now left|].
    destruct (find _ notes); now left.
Qed.

Lemma notepadRun_snoc calls c notes :
  notepadRun parseParams stringifyNote stringifyNotes (calls ++ [c]) notes
  = fst (notepadFunc parseParams stringifyNote stringifyNotes (notepadRun parseParams stringifyNote stringifyNotes calls notes) (fst c) (snd c)).
Proof. unfold notepadRun. now rewrite fold_left_app. Qed.

Lemma find_last_added (notes : list Note) (saved : Note) (id : nat) :
  (forall x, In x notes -> note_id x <> id) ->
  note_id saved = id ->
  find (fun x => Z.eqb (Z.of_nat (note_id x)) (Z.of_nat id)) (notes ++ [saved])
  = Some saved.
Proof.
  intros Hold Hnew. induction notes as [|x notes IH]; simpl.
  - rewrite Hnew. now rewrite Z.eqb_refl.
  - destruct (Z.eqb (Z.of_nat (note_id x)) (Z.of_nat id)) eqn:E.
    + apply Z.eqb_eq, Nat2Z.inj in E. exfalso.
      apply (Hold x); [now left|exact E].
    + apply IH. intros y Hy. apply Hold. now right.
Qed.

(** X18. However the notepad is called, the notes it holds are numbered
    1, 2, 3, ... in the order in which they were saved, so no two notes
    share an id, and the notes held before the calls are still there,
    unchanged and in front. *)
Theorem X18_notepad_ids_consecutive :
  forall (calls : list (string * string)) (notes : list Note),
    (exists added, notepadRun parseParams stringifyNote stringifyNotes calls notes = notes ++ added)
    /\ map note_id (notepadRun parseParams stringifyNote stringifyNotes calls [])
       = seq 1 (List.length (notepadRun parseParams stringifyNote stringifyNotes calls []))
    /\ NoDup (map note_id (notepadRun parseParams stringifyNote stringifyNotes calls [])).
Proof.
  intros calls notes.
  assert (Hgrow : forall ns, exists added, notepadRun parseParams stringifyNote stringifyNotes calls ns = ns ++ added).
  { induction calls as [|c calls IH] using rev_ind; intros ns.
    - exists []. simpl. now rewrite app_nil_r.
    - rewrite notepadRun_snoc. destruct (IH ns) as [added Ha].
      destruct (notepadFunc_grows (notepadRun parseParams stringifyNote stringifyNotes calls ns) (fst c) (snd c))
        as [H|[t H]]; rewrite H, Ha.
      + now exists added.
      + eexists. now rewrite <- app_assoc. }
  assert (Hids : map note_id (notepadRun parseParams stringifyNote stringifyNotes calls [])
                 = seq 1 (List.length (notepadRun parseParams stringifyNote stringifyNotes calls []))).
  { clear Hgrow. induction calls as [|c calls IH] using rev_ind; [reflexivity|].
    rewrite notepadRun_snoc.
    destruct (notepadFunc_grows (notepadRun parseParams stringifyNote stringifyNotes calls []) (fst c) (snd c))
      as [H|[t H]]; rewrite H; [exact IH|].
    rewrite map_app, length_app, seq_app, IH. simpl.
    now rewrite Nat.add_comm. }
  split; [apply Hgrow|]. split; [exact Hids|].
  rewrite Hids. apply seq_NoDup.
Qed.

(** X19. Saving a text and then asking for the id that the save announced
    returns that note, with the text and the clock reading of the save;
    the save appends the note and the lookup changes nothing.  The notes
    held before are numbered from 1, as they are after any series of
    calls. *)
Theorem X19_notepad_save_then_get :
  forall (notes : list Note) (now later save get t : string) (other : option Z)
         (otherText : option string),
    map note_id notes = seq 1 (List.length notes) ->
    t <> EmptyString ->
    parseParams save = Some (mkParams (Some "save") (Some t) other) ->
    parseParams get
    = Some (mkParams (Some "get") otherText
              (Some (Z.of_nat (List.length notes + 1)))) ->
    let saved := mkNote (List.length notes + 1) t now in
    notepadFunc parseParams stringifyNote stringifyNotes notes now save
    = (notes ++ [saved],
       ("Note saved with ID "
        ++ NilZero.string_of_uint (Nat.to_uint (List.length notes + 1)))%string)
    /\ notepadFunc parseParams stringifyNote stringifyNotes (notes ++ [saved]) later get
       = (notes ++ [saved], stringifyNote saved).
Proof.
  intros notes now later save get t other otherText Hids Ht Hsave Hget saved.
  split.
  - unfold notepadFunc. rewrite Hsave. cbn [isAction np_action np_text].
    change (String.eqb "save" "save") with true. cbv iota.
    destruct t as [|c t]; [contradiction|].
    rewrite length_app. reflexivity.
  - unfold notepadFunc. rewrite Hget. cbn [isAction np_action np_id].
    change (String.eqb "get" "save") with false.
    change (String.eqb "get" "get") with true. cbv iota.
    replace (Z.eqb (Z.of_nat (List.length notes + 1)) 0) with false
      by (symmetry; apply Z.eqb_neq; lia).
    rewrite (find_last_added notes saved); [reflexivity| |reflexivity].
    intros x Hx Heq.
    assert (Hin : In (note_id x) (seq 1 (List.length notes))).
    { rewrite <- Hids. now apply in_map. }
    apply in_seq in Hin. lia.
Qed.

(** X20. A lookup never changes the notes.  An id that no note carries
    gives the text [Note not found]; the id 0, like a missing id, lists all
    notes. *)
Theorem X20_notepad_get_misses :
  forall (notes : list Note) (now get : string) (otherText : option string)
         (id : option Z),
    parseParams get = Some (mkParams (Some "get") otherText id) ->
    fst (notepadFunc parseParams stringifyNote stringifyNotes notes now get)
    = notes
    /\ match id with
       | None | Some 0%Z =>
           snd (notepadFunc parseParams stringifyNote stringifyNotes notes now get)
           = stringifyNotes notes
       | Some z =>
           (forall x, In x notes -> Z.of_nat (note_id x) <> z) ->
           snd (notepadFunc parseParams stringifyNote stringifyNotes notes now get)
           = "Note not found"
       end.
Proof.
  intros notes now get otherText id Hget. unfold notepadFunc. rewrite Hget.
  cbn [isAction np_action np_id].
  change (String.eqb "get" "save") with false.
  change (String.eqb "get" "get") with true. cbv iota.
  assert (Hmiss : forall z,
             (forall x, In x notes -> Z.of_nat (note_id x) <> z) ->
             find (fun n => Z.eqb (Z.of_nat (note_id n)) z) notes = None).
  { intros z Hz. apply find_none. intros x Hx. apply Z.eqb_neq. now apply Hz. }
  destruct id as [[|z|z]|]; cbn [Z.eqb fst snd].
  - now split.
  - split; [now destruct (find _ notes)|].
    intros Hz. now rewrite (Hmiss _ Hz).
  - split; [now destruct (find _ notes)|].
    intros Hz. now rewrite (Hmiss _ Hz).
  - now split.
Qed.

End NotepadFacts.

(** X19 with the example parser, on an empty notepad. *)
Lemma X19_notepad_save_then_get_witness :
  notepadFunc demoParse demoStringifyNote demoStringifyNotes
              [mkNote 1 "milk" "10:00"] "10:05" "get 1"
  = ([mkNote 1 "milk" "10:00"], "milk").
Proof.
  apply (X19_notepad_save_then_get demoParse demoStringifyNote
           demoStringifyNotes [] "10:00" "10:05" "save milk" "get 1" "milk"
           None None eq_refl).
  - discriminate.
  - reflexivity.
  - reflexivity.
Defined.

(** X20 with the example parser, on an empty notepad. *)
Lemma X20_notepad_get_misses_witness :
  fst (notepadFunc demoParse demoStringifyNote demoStringifyNotes []
                   "10:05" "get 1")
  = []
  /\ snd (notepadFunc demoParse demoStringifyNote demoStringifyNotes []
                      "10:05" "get 1")
     = "Note not found".
Proof.
  destruct (X20_notepad_get_misses demoParse demoStringifyNote
              demoStringifyNotes [] "10:05" "get 1" None (Some 1%Z) eq_refl)
    as [H1 H2].
  split; [exact H1|]. apply H2. intros x [].
Defined.

(** * Building and running with a changed registry *)




(** X22. A plugin that is registered or enabled after the graph was
    compiled is known to the router, which reads the registry when it is
    called, but not to the graph.  When the model calls such a plugin, the
    routing step out of the agent fails with a routing error on its name,
    and [run] returns the apology in place of a transcript. *)
Theorem X22_plugin_added_after_compile_breaks_run :
  forall (llm : list Tool -> list Message -> option (string * list ToolCall))
         (execToolNode : ToolNode -> list Message -> option (list Message))
         (failureMessage : string -> Message)
         (errorText : GraphError -> string) (nullGraphText : string)
         (a : AgentWithPlugins) (ps0 : PluginSystem) (g : CompiledGraph)
         (message c : string) (tc : ToolCall) (tcs : list ToolCall),
    graph a = Some g ->
    buildGraph ps0 = Ok g ->
    (forall ms, llm (boundTools a) ms = Some (c, tc :: tcs)) ->
    In (tc_name tc) (map ep_name (getEnabledPlugins (pluginSystem a))) ->
    ~ In (tc_name tc) (JsMap.keys (getEnabledToolNodes ps0)) ->
    tc_name tc <> END ->
    invoke llm execToolNode failureMessage g a
           (mkState [HumanMessage message] [])
    = Err (RoutingKeyError "agent" (tc_name tc))
    /\ run llm execToolNode failureMessage errorText nullGraphText a message
       = Ok (a, apology message
                  (errorText (RoutingKeyError "agent" (tc_name tc)))).
Proof.
  intros llm exec fm errorText nullText a ps0 g message c tc tcs
         Hg Hbuild Hllm Hen Hstale Hend.
  apply buildGraph_inv in Hbuild. subst g.
  set (init := mkState [HumanMessage message] []).
  set (state' := merge init (agentNode llm a (st_messages init))).
  assert (Hlast : lastMessage (st_messages state')
                  = Some (AIMessageWithCalls c (tc :: tcs))).
  { subst state'. unfold merge, agentNode. rewrite Hllm.
    cbn [st_messages p_messages]. now rewrite app_assoc, lastMessage_snoc. }
  assert (Hkey : fst (routeFromAgent (pluginSystem a) (st_messages state'))
                 = tc_name tc).
  { rewrite routeFromAgent_key.
    rewrite (routedTool_first _ _ _ tc tcs Hlast eq_refl eq_refl).
    now rewrite (proj2 (enabledName_In _ _) Hen). }
  assert (Hinv : invoke llm exec fm (toolLoopGraph (getEnabledToolNodes ps0)) a init
                 = Err (RoutingKeyError "agent" (tc_name tc))).
  { assert (Hstep : step llm exec fm (toolLoopGraph (getEnabledToolNodes ps0))
                         a init "agent"
                    = Err (RoutingKeyError "agent" (tc_name tc))).
    { unfold step. cbn [toolLoopGraph cg_nodes JsMap.get].
      rewrite String.eqb_refl. cbn [runNode]. fold state'.
      rewrite resolveNext_stale; rewrite Hkey;
        [reflexivity|exact Hend|exact Hstale]. }
    unfold invoke. cbn [toolLoopGraph cg_recursionLimit cg_entry].
    change 100 with (S 99). cbn [loop].
    change (String.eqb "agent" END) with false. cbv iota.
    fold (toolLoopGraph (getEnabledToolNodes ps0)). now rewrite Hstep. }
  split; [exact Hinv|].
  unfold run. rewrite Hg. cbn [bind]. rewrite Hg. unfold invokeOrApologize.
  fold init. now rewrite Hinv.
Qed.

(** X22 at the agent whose graph predates the plugin [calc]. *)
Lemma X22_plugin_added_after_compile_breaks_run_witness :
  buildGraph searchOnly = Ok (toolLoopGraph (getEnabledToolNodes searchOnly))
  /\ In (tc_name calcCall)
        (map ep_name (getEnabledPlugins (pluginSystem staleAgent)))
  /\ invoke calcLlm echoToolNode failureNote
            (toolLoopGraph (getEnabledToolNodes searchOnly)) staleAgent
            (mkState [HumanMessage "2+2?"] [])
     = Err (RoutingKeyError "agent" "calc").
Proof.
  assert (Hen : In (tc_name calcCall)
                   (map ep_name (getEnabledPlugins (pluginSystem staleAgent)))).
  { simpl. tauto. }
  split; [reflexivity|]. split; [exact Hen|].
  apply (X22_plugin_added_after_compile_breaks_run calcLlm echoToolNode
           failureNote (fun _ => "routing error") "no graph" staleAgent
           searchOnly (toolLoopGraph (getEnabledToolNodes searchOnly))
           "2+2?" EmptyString calcCall [] eq_refl eq_refl
           (fun _ => eq_refl) Hen).
  - simpl. intuition discriminate.
  - discriminate.
Defined.
